(** * SocTalk: event store, projector, routing, correlation and queue

    A shallow embedding of the parts of the SocTalk sources that the
    specification's testable properties talk about, and the theorems
    that settle those properties against the code. *)

From Stdlib Require Import ZArith Lia List String Ascii Bool DecimalString.
From stdpp Require Import base option gmap strings list.
Import ListNotations.

Local Open Scope string_scope.
Local Open Scope Z_scope.

(** ** Python values

    The workflow state, event payloads and parsed LLM answers are Python
    dictionaries holding JSON-like values.  Floats are kept as their IEEE
    binary64 bit pattern: the code below only copies them, tests their
    truthiness and (once) compares one with the integer 2. *)

Module Py.

#[local] Unset Elimination Schemes.
Inductive value : Type :=
| VNone
| VBool (b : bool)
| VInt (z : Z)
| VFloat (bits : Z)
| VStr (s : string)
| VList (l : list value)
| VDict (d : gmap string value).

#[local] Set Elimination Schemes.

(** Exceptions raised by the embedded code. *)
Inductive exn : Type :=
| AttributeError
| TypeError
| MultipleResultsFound
| IntegrityError
| ConcurrencyError (expected_version actual_version : Z)
| IdempotencyError (idempotency_key : string)
| GraphInterrupt
| ValueError
| ValidationError.

Definition float_is_zero (bits : Z) : bool :=
  Z.land bits (2 ^ 63 - 1) =? 0.

Definition float_is_nan (bits : Z) : bool :=
  (Z.land (Z.shiftr bits 52) 2047 =? 2047)
  && negb (Z.land bits (2 ^ 52 - 1) =? 0).

(** [bool(v)] *)
Definition truthy (v : value) : bool :=
  match v with
  | VNone => false
  | VBool b => b
  | VInt z => negb (z =? 0)
  | VFloat bits => negb (float_is_zero bits)
  | VStr s => negb (String.eqb s EmptyString)
  | VList l => match l with [] => false | _ => true end
  | VDict d => match map_to_list d with [] => false | _ => true end
  end.

(** [a or b] *)
Definition py_or (a b : value) : value := if truthy a then a else b.

(** [d.get(k)] and [d.get(k, dflt)] on a dictionary. *)
Definition get (d : gmap string value) (k : string) : value :=
  default VNone (d !! k).

Definition get_or (d : gmap string value) (k : string) (dflt : value) : value :=
  default dflt (d !! k).

(** [k in d] *)
Definition has_key (d : gmap string value) (k : string) : bool :=
  bool_decide (is_Some (d !! k)).

(** [v == s] for a string literal [s]: only a string equal to [s] is. *)
Definition eq_str (v : value) (s : string) : bool :=
  match v with
  | VStr t => String.eqb t s
  | _ => false
  end.

(** *** Text

    A [str] is held as its UTF-8 encoding, so that [==], [pat in s] and
    [s.startswith(pat)] are the same tests on the bytes.  A code point
    starts at every byte that is not a continuation byte [10xxxxxx]. *)
Definition is_continuation (c : ascii) : bool :=
  let n := N_of_ascii c in ((128 <=? n) && (n <? 192))%N.

(** [len(s)]: the number of code points. *)
Fixpoint len (s : string) : Z :=
  match s with
  | EmptyString => 0
  | String c s' => (if is_continuation c then 0 else 1) + len s'
  end.

(** [s[:n]]: the first [n] code points. *)
Fixpoint slice_to (n : nat) (s : string) : string :=
  match s with
  | EmptyString => EmptyString
  | String c s' =>
      if is_continuation c then String c (slice_to n s')
      else match n with
           | O => EmptyString
           | S n' => String c (slice_to n' s')
           end
  end.

Definition lower_ascii (c : ascii) : ascii :=
  let n := N_of_ascii c in
  if ((65 <=? n) && (n <=? 90))%N then ascii_of_N (n + 32) else c.

Definition upper_ascii (c : ascii) : ascii :=
  let n := N_of_ascii c in
  if ((97 <=? n) && (n <=? 122))%N then ascii_of_N (n - 32) else c.

Definition is_byte (c : ascii) (n : N) : bool := (N_of_ascii c =? n)%N.

(** [s.lower()], as far as ASCII goes.  The code compares the result with
    ASCII words and searches it for ASCII words only, and the lower case
    of a character holds an ASCII character in three cases: the letters A
    to Z, U+212A (Kelvin sign, to k) and U+0130 (to i followed by U+0307).
    These are mapped; any other character outside ASCII is left as it
    is, which changes no such comparison and no such search. *)
Fixpoint lower (s : string) : string :=
  match s with
  | EmptyString => EmptyString
  | String c1 s1 =>
      match s1 with
      | String c2 s2 =>
          if is_byte c1 196 && is_byte c2 176
          then String "i" (String (ascii_of_N 204)
                             (String (ascii_of_N 135) (lower s2)))
          else
            match s2 with
            | String c3 s3 =>
                if is_byte c1 226 && is_byte c2 132 && is_byte c3 170
                then String "k" (lower s3)
                else String (lower_ascii c1) (lower s1)
            | EmptyString => String (lower_ascii c1) (lower s1)
            end
      | EmptyString => String (lower_ascii c1) EmptyString
      end
  end.

(** The ASCII letters a to z in upper case, every other byte as it is:
    [s.upper()] for a text within ASCII. *)
Fixpoint upper (s : string) : string :=
  match s with
  | EmptyString => EmptyString
  | String c s' => String (upper_ascii c) (upper s')
  end.

(** [pat in s] on strings. *)
Fixpoint contains (pat s : string) : bool :=
  String.prefix pat s ||
  match s with
  | EmptyString => false
  | String _ s' => contains pat s'
  end.

(** [s.startswith(pat)] *)
Definition startswith (pat s : string) : bool := String.prefix pat s.

(** [v.lower()]: defined on strings only. *)
Definition value_lower (v : value) : exn + string :=
  match v with
  | VStr s => inr (lower s)
  | _ => inl AttributeError
  end.

(** [v >= n] for an integer literal [n >= 1]: integers and booleans
    compare as integers, floats by value (NaN compares false), anything
    else raises. *)
Definition float_ge_pow2 (bits : Z) (k : Z) : bool :=
  (* bits encode a float >= 2^k, for -1022 <= k <= 1023 *)
  negb (float_is_nan bits)
  && (bits <? 2 ^ 63)
  && (k + 1023 <=? Z.land (Z.shiftr bits 52) 2047).

Definition ge_two (v : value) : exn + bool :=
  match v with
  | VInt z => inr (2 <=? z)
  | VBool _ => inr false
  | VFloat bits => inr (float_ge_pow2 bits 1)
  | _ => inl TypeError
  end.

End Py.

Import Py.

(** ** Workflow routing ([graph/builder.py]) *)

Module Builder.

Definition state := gmap string value.

(** [VerdictDecision] values. *)
Definition ESCALATE : string := "escalate".
Definition CLOSE : string := "close".
Definition NEEDS_MORE_INFO : string := "needs_more_info".

(** [dict.get] on a value that is expected to be a dictionary. *)
Definition value_get (v : value) (k : string) (dflt : value) : exn + value :=
  match v with
  | VDict d => inr (get_or d k dflt)
  | _ => inl AttributeError
  end.

Definition route_from_verdict (st : state) : exn + string :=
  let verdict := get_or st "verdict" (VDict ∅) in
  match value_get verdict "decision" (VStr NEEDS_MORE_INFO) with
  | inl e => inl e
  | inr decision =>
      if eq_str decision ESCALATE then inr "human_review"
      else if eq_str decision CLOSE then inr "close_investigation"
      else if eq_str decision NEEDS_MORE_INFO then
        let verdict_retries := get_or st "verdict_retry_count" (VInt 0) in
        match ge_two verdict_retries with
        | inl e => inl e
        | inr true => inr "human_review"
        | inr false => inr "supervisor"
        end
      else inr "human_review"
  end.

(** The state at the third verdict of the retry scenario. *)
Definition third_verdict_state : state :=
  {[ "verdict" := VDict {[ "decision" := VStr "needs_more_info" ]};
     "verdict_retry_count" := VInt 2 ]}.

End Builder.

(** ** Persistence: tables, session and effects

    [persistence/models.py] declares the tables; the embedding keeps the
    [events] table and the [investigations] read model.  The session is
    modelled with its pending (flushed, uncommitted) view [db] and the last
    committed view [committed], so that [session.rollback()] can be
    written out.  [datetime.utcnow()] and [uuid4()] read two streams of
    the environment. *)

Module Models.

Definition UUID := Z.

Record Event : Type := mkEvent {
  event_id : UUID;
  aggregate_id : UUID;
  aggregate_type : string;
  event_type : string;
  version : Z;
  timestamp : Z;                      (* microseconds *)
  data : gmap string value;
  event_metadata : gmap string value;
  idempotency_key : option string
}.

Record InvestigationReadModel : Type := mkInvestigation {
  inv_id : UUID;
  title : value;
  status : string;
  phase : value;
  created_at : Z;
  updated_at : Z;
  closed_at : option Z;
  time_to_triage_seconds : option Z;
  time_to_verdict_seconds : option Z;
  alert_count : Z;
  observable_count : Z;
  malicious_count : Z;
  suspicious_count : Z;
  clean_count : Z;
  max_severity : value;
  verdict_decision : value;
  verdict_confidence : value;
  verdict_reasoning : value;
  thehive_case_id : value;
  threat_actor : value;
  tags : list string
}.

(** [InvestigationReadModel(id=aggregate_id)]: the field defaults, with
    the two [default_factory=datetime.utcnow] readings as arguments. *)
Definition new_investigation (aggregate : UUID) (now_created now_updated : Z)
  : InvestigationReadModel :=
  {| inv_id := aggregate; title := VNone; status := "pending";
     phase := VStr "triage"; created_at := now_created;
     updated_at := now_updated; closed_at := None;
     time_to_triage_seconds := None; time_to_verdict_seconds := None;
     alert_count := 0; observable_count := 0; malicious_count := 0;
     suspicious_count := 0; clean_count := 0; max_severity := VNone;
     verdict_decision := VNone; verdict_confidence := VNone;
     verdict_reasoning := VNone; thehive_case_id := VNone;
     threat_actor := VNone; tags := [] |}.

Record Tables : Type := mkTables {
  events : list Event;                               (* in insertion order *)
  investigations : gmap UUID InvestigationReadModel
}.

Record World : Type := mkWorld {
  clock : nat -> Z;       (* successive readings of datetime.utcnow() *)
  ticks : nat;
  uuids : nat -> UUID;    (* successive results of uuid4() *)
  drawn : nat;
  db : Tables;
  committed : Tables
}.

Definition set_db (t : Tables) (w : World) : World :=
  {| clock := clock w; ticks := ticks w; uuids := uuids w; drawn := drawn w;
     db := t; committed := committed w |}.

(** Computations that read and write the world and may raise; the world
    reached is kept when they raise, as Python keeps mutations. *)
Definition M (A : Type) : Type := World -> (exn + A) * World.

Definition ret {A} (a : A) : M A := fun w => (inr a, w).
Definition raise {A} (e : exn) : M A := fun w => (inl e, w).
Definition bind {A B} (m : M A) (k : A -> M B) : M B :=
  fun w => match m w with
           | (inr a, w') => k a w'
           | (inl e, w') => (inl e, w')
           end.

#[global] Instance M_ret : MRet M := @ret.
#[global] Instance M_bind : MBind M := fun A B k m => bind m k.

Definition utcnow : M Z := fun w =>
  (inr (clock w (ticks w)),
   {| clock := clock w; ticks := S (ticks w); uuids := uuids w;
      drawn := drawn w; db := db w; committed := committed w |}).

Definition uuid4 : M UUID := fun w =>
  (inr (uuids w (drawn w)),
   {| clock := clock w; ticks := ticks w; uuids := uuids w;
      drawn := S (drawn w); db := db w; committed := committed w |}).

Definition read_db : M Tables := fun w => (inr (db w), w).
Definition write_db (t : Tables) : M unit := fun w => (inr tt, set_db t w).

(** [session.commit()] and [session.rollback()] *)
Definition commit : M unit := fun w =>
  (inr tt, {| clock := clock w; ticks := ticks w; uuids := uuids w;
              drawn := drawn w; db := db w; committed := db w |}).
Definition rollback : M unit := fun w => (inr tt, set_db (committed w) w).

(** [result.scalar_one_or_none()] *)
Definition scalar_one_or_none {A} (rows : list A) : M (option A) :=
  match rows with
  | [] => ret None
  | [x] => ret (Some x)
  | _ => raise MultipleResultsFound
  end.

(** [for x in xs: body(x)] *)
Fixpoint for_each {A} (xs : list A) (body : A -> M unit) : M unit :=
  match xs with
  | [] => ret tt
  | x :: xs' => body x ;; for_each xs' body
  end.

End Models.

Import Models.

(** ** Event store ([persistence/store.py]) *)

Module EventStore.

(** Unique constraints of the [events] table ([Event.__table_args__] and
    the primary key), checked when a row is flushed. *)
Inductive constraint : Type :=
| events_pkey
| uq_aggregate_version
| ix_events_idempotency_key.

Definition violated (rows : list Event) (e : Event) : option constraint :=
  if existsb (fun r => event_id r =? event_id e) rows then Some events_pkey
  else if existsb (fun r => (aggregate_id r =? aggregate_id e)
                            && (version r =? version e)) rows
       then Some uq_aggregate_version
  else match idempotency_key e with
       | Some k =>
           if existsb (fun r => bool_decide (idempotency_key r = Some k)) rows
           then Some ix_events_idempotency_key else None
       | None => None
       end.

(** [session.add(event); await session.flush()] *)
Definition add_and_flush (e : Event) : M (option constraint) :=
  t ← read_db;
  match violated (events t) e with
  | Some c => ret (Some c)
  | None =>
      write_db {| events := (events t ++ [e])%list;
                  investigations := investigations t |} ;;
      ret None
  end.

(** [select(Event.version).where(aggregate_id == a)
       .order_by(Event.version.desc()).limit(1)], then [version or 0]. *)
Definition latest_version_of (rows : list Event) (aggregate : UUID) : Z :=
  match filter (fun r => aggregate_id r = aggregate) rows with
  | [] => 0
  | r :: rs => fold_left (fun m x => Z.max m (version x)) rs (version r)
  end.

Definition get_latest_version (aggregate : UUID) : M Z :=
  t ← read_db; ret (latest_version_of (events t) aggregate).

Definition _get_by_idempotency_key (key : string) : M (option Event) :=
  t ← read_db;
  scalar_one_or_none
    (filter (fun r => idempotency_key r = Some key) (events t)).

(** [if idempotency_key:] on a [str | None]. *)
Definition key_given (k : option string) : option string :=
  match k with
  | Some s => if String.eqb s EmptyString then None else Some s
  | None => None
  end.

Definition append
    (aggregate : UUID) (etype : string) (payload : gmap string value)
    (metadata : option (gmap string value)) (atype : string)
    (expected_version : option Z) (key : option string) : M Event :=
  current_version ← get_latest_version aggregate;
  match expected_version with
  | Some ev =>
      if negb (current_version =? ev)
      then raise (ConcurrencyError ev current_version) else ret tt
  | None => ret tt
  end ;;
  let new_version := current_version + 1 in
  existing ← match key_given key with
              | Some k => _get_by_idempotency_key k
              | None => ret None
              end;
  match existing with
  | Some e => ret e
  | None =>
      now ← utcnow;
      fresh ← uuid4;
      let event :=
        {| event_id := fresh; aggregate_id := aggregate;
           aggregate_type := atype; event_type := etype;
           version := new_version; timestamp := now; data := payload;
           event_metadata := default ∅ metadata;
           idempotency_key := key |} in
      failure ← add_and_flush event;
      match failure with
      | None => ret event
      | Some c =>
          rollback ;;
          match c with
          | uq_aggregate_version =>
              actual_version ← get_latest_version aggregate;
              raise (ConcurrencyError (new_version - 1) actual_version)
          | ix_events_idempotency_key =>
              match key_given key with
              | Some k => raise (IdempotencyError k)
              | None => raise IntegrityError
              end
          | events_pkey => raise IntegrityError
          end
      end
  end.

(** Stable insertion sort on [version], for [order_by(Event.version)]. *)
Fixpoint insert_by_version (e : Event) (l : list Event) : list Event :=
  match l with
  | [] => [e]
  | x :: l' =>
      if version e <? version x then e :: l
      else x :: insert_by_version e l'
  end.

Definition order_by_version (l : list Event) : list Event :=
  fold_right insert_by_version [] l.

Definition get_events
    (aggregate : UUID) (from_version to_version : option Z) : M (list Event) :=
  t ← read_db;
  let rows := filter (fun r => aggregate_id r = aggregate) (events t) in
  let rows := match from_version with
              | Some v => filter (fun r => v <= version r) rows
              | None => rows
              end in
  let rows := match to_version with
              | Some v => filter (fun r => version r <= v) rows
              | None => rows
              end in
  ret (order_by_version rows).

(** *** The store's constraints as predicates, and sample worlds *)

(** The unique index on [idempotency_key]: the keys that are set are
    pairwise different. *)
Definition keys_unique (rows : list Event) : Prop :=
  NoDup (omap idempotency_key rows).

(** Some stored event carries the key of the call. *)
Definition key_stored (rows : list Event) (key : option string) : bool :=
  match key with
  | Some k => existsb (fun r => bool_decide (idempotency_key r = Some k)) rows
  | None => false
  end.

(** The next [uuid4()] is not the id of a stored event. *)
Definition next_uuid_fresh (w : World) : Prop :=
  forall r, r ∈ events (db w) -> event_id r <> uuids w (drawn w).

Definition no_tables : Tables := {| events := []; investigations := ∅ |}.

(** An empty database, a clock that advances by one second per reading
    from [t0], and distinct uuids. *)
Definition empty_world (t0 : Z) : World :=
  {| clock := fun n => t0 + 1000000 * Z.of_nat n; ticks := 0;
     uuids := fun n => 100 + Z.of_nat n; drawn := 0;
     db := no_tables; committed := no_tables |}.

(** The call the emitter makes for INVESTIGATION_CREATED, here with an
    expected version, and the world it leaves when made first. *)
Definition create_call (expected_version : option Z) : M Event :=
  append 1 "investigation.created"
    {[ "title" := VStr "Port scan"; "max_severity" := VStr "low" ]}
    None "Investigation" expected_version (Some "inv-created-1").

Definition created_world : World := snd (create_call (Some 0) (empty_world 0)).

End EventStore.

(** ** Projector ([persistence/projector.py])

    Every handler below is the source handler restricted to the
    [investigations] table.  The writes of the same handlers to the hourly
    metrics, IOC, rule, analyzer and pending-review tables are not part of
    the embedding: no handler reads them back into an investigation row. *)

Module Projector.

(** [EventType] values the projector dispatches on. *)
Definition INVESTIGATION_CREATED : string := "investigation.created".
Definition INVESTIGATION_STARTED : string := "investigation.started".
Definition INVESTIGATION_CLOSED : string := "investigation.closed".
Definition INVESTIGATION_PAUSED : string := "investigation.paused".
Definition INVESTIGATION_RESUMED : string := "investigation.resumed".
Definition INVESTIGATION_CANCELLED : string := "investigation.cancelled".
Definition INVESTIGATION_ESCALATED : string := "investigation.escalated".
Definition INVESTIGATION_AUTO_CLOSED : string := "investigation.auto_closed".
Definition ALERT_CORRELATED : string := "alert.correlated".
Definition OBSERVABLE_EXTRACTED : string := "observable.extracted".
Definition ENRICHMENT_COMPLETED : string := "enrichment.completed".
Definition PHASE_CHANGED : string := "phase.changed".
Definition VERDICT_RENDERED : string := "verdict.rendered".
Definition HUMAN_REVIEW_REQUESTED : string := "human.review_requested".
Definition HUMAN_DECISION_RECEIVED : string := "human.decision_received".
Definition THEHIVE_CASE_CREATED : string := "thehive.case_created".
Definition ANALYZER_INVOKED : string := "analyzer.invoked".
Definition ANALYZER_COMPLETED : string := "analyzer.completed".

(** Field updates of the read-model object. *)
Definition set_title v (i : InvestigationReadModel) :=
  {| inv_id := inv_id i; title := v; status := status i; phase := phase i;
     created_at := created_at i; updated_at := updated_at i;
     closed_at := closed_at i;
     time_to_triage_seconds := time_to_triage_seconds i;
     time_to_verdict_seconds := time_to_verdict_seconds i;
     alert_count := alert_count i; observable_count := observable_count i;
     malicious_count := malicious_count i;
     suspicious_count := suspicious_count i; clean_count := clean_count i;
     max_severity := max_severity i; verdict_decision := verdict_decision i;
     verdict_confidence := verdict_confidence i;
     verdict_reasoning := verdict_reasoning i;
     thehive_case_id := thehive_case_id i; threat_actor := threat_actor i;
     tags := tags i |}.
Definition set_status v (i : InvestigationReadModel) :=
  {| inv_id := inv_id i; title := title i; status := v; phase := phase i;
     created_at := created_at i; updated_at := updated_at i;
     closed_at := closed_at i;
     time_to_triage_seconds := time_to_triage_seconds i;
     time_to_verdict_seconds := time_to_verdict_seconds i;
     alert_count := alert_count i; observable_count := observable_count i;
     malicious_count := malicious_count i;
     suspicious_count := suspicious_count i; clean_count := clean_count i;
     max_severity := max_severity i; verdict_decision := verdict_decision i;
     verdict_confidence := verdict_confidence i;
     verdict_reasoning := verdict_reasoning i;
     thehive_case_id := thehive_case_id i; threat_actor := threat_actor i;
     tags := tags i |}.
Definition set_phase v (i : InvestigationReadModel) :=
  {| inv_id := inv_id i; title := title i; status := status i; phase := v;
     created_at := created_at i; updated_at := updated_at i;
     closed_at := closed_at i;
     time_to_triage_seconds := time_to_triage_seconds i;
     time_to_verdict_seconds := time_to_verdict_seconds i;
     alert_count := alert_count i; observable_count := observable_count i;
     malicious_count := malicious_count i;
     suspicious_count := suspicious_count i; clean_count := clean_count i;
     max_severity := max_severity i; verdict_decision := verdict_decision i;
     verdict_confidence := verdict_confidence i;
     verdict_reasoning := verdict_reasoning i;
     thehive_case_id := thehive_case_id i; threat_actor := threat_actor i;
     tags := tags i |}.
Definition set_created_at v (i : InvestigationReadModel) :=
  {| inv_id := inv_id i; title := title i; status := status i;
     phase := phase i; created_at := v; updated_at := updated_at i;
     closed_at := closed_at i;
     time_to_triage_seconds := time_to_triage_seconds i;
     time_to_verdict_seconds := time_to_verdict_seconds i;
     alert_count := alert_count i; observable_count := observable_count i;
     malicious_count := malicious_count i;
     suspicious_count := suspicious_count i; clean_count := clean_count i;
     max_severity := max_severity i; verdict_decision := verdict_decision i;
     verdict_confidence := verdict_confidence i;
     verdict_reasoning := verdict_reasoning i;
     thehive_case_id := thehive_case_id i; threat_actor := threat_actor i;
     tags := tags i |}.
Definition set_updated_at v (i : InvestigationReadModel) :=
  {| inv_id := inv_id i; title := title i; status := status i;
     phase := phase i; created_at := created_at i; updated_at := v;
     closed_at := closed_at i;
     time_to_triage_seconds := time_to_triage_seconds i;
     time_to_verdict_seconds := time_to_verdict_seconds i;
     alert_count := alert_count i; observable_count := observable_count i;
     malicious_count := malicious_count i;
     suspicious_count := suspicious_count i; clean_count := clean_count i;
     max_severity := max_severity i; verdict_decision := verdict_decision i;
     verdict_confidence := verdict_confidence i;
     verdict_reasoning := verdict_reasoning i;
     thehive_case_id := thehive_case_id i; threat_actor := threat_actor i;
     tags := tags i |}.
Definition set_closed_at v (i : InvestigationReadModel) :=
  {| inv_id := inv_id i; title := title i; status := status i;
     phase := phase i; created_at := created_at i;
     updated_at := updated_at i; closed_at := v;
     time_to_triage_seconds := time_to_triage_seconds i;
     time_to_verdict_seconds := time_to_verdict_seconds i;
     alert_count := alert_count i; observable_count := observable_count i;
     malicious_count := malicious_count i;
     suspicious_count := suspicious_count i; clean_count := clean_count i;
     max_severity := max_severity i; verdict_decision := verdict_decision i;
     verdict_confidence := verdict_confidence i;
     verdict_reasoning := verdict_reasoning i;
     thehive_case_id := thehive_case_id i; threat_actor := threat_actor i;
     tags := tags i |}.
Definition set_time_to_triage_seconds v (i : InvestigationReadModel) :=
  {| inv_id := inv_id i; title := title i; status := status i;
     phase := phase i; created_at := created_at i;
     updated_at := updated_at i; closed_at := closed_at i;
     time_to_triage_seconds := v;
     time_to_verdict_seconds := time_to_verdict_seconds i;
     alert_count := alert_count i; observable_count := observable_count i;
     malicious_count := malicious_count i;
     suspicious_count := suspicious_count i; clean_count := clean_count i;
     max_severity := max_severity i; verdict_decision := verdict_decision i;
     verdict_confidence := verdict_confidence i;
     verdict_reasoning := verdict_reasoning i;
     thehive_case_id := thehive_case_id i; threat_actor := threat_actor i;
     tags := tags i |}.
Definition set_time_to_verdict_seconds v (i : InvestigationReadModel) :=
  {| inv_id := inv_id i; title := title i; status := status i;
     phase := phase i; created_at := created_at i;
     updated_at := updated_at i; closed_at := closed_at i;
     time_to_triage_seconds := time_to_triage_seconds i;
     time_to_verdict_seconds := v;
     alert_count := alert_count i; observable_count := observable_count i;
     malicious_count := malicious_count i;
     suspicious_count := suspicious_count i; clean_count := clean_count i;
     max_severity := max_severity i; verdict_decision := verdict_decision i;
     verdict_confidence := verdict_confidence i;
     verdict_reasoning := verdict_reasoning i;
     thehive_case_id := thehive_case_id i; threat_actor := threat_actor i;
     tags := tags i |}.
Definition set_alert_count v (i : InvestigationReadModel) :=
  {| inv_id := inv_id i; title := title i; status := status i;
     phase := phase i; created_at := created_at i;
     updated_at := updated_at i; closed_at := closed_at i;
     time_to_triage_seconds := time_to_triage_seconds i;
     time_to_verdict_seconds := time_to_verdict_seconds i;
     alert_count := v; observable_count := observable_count i;
     malicious_count := malicious_count i;
     suspicious_count := suspicious_count i; clean_count := clean_count i;
     max_severity := max_severity i; verdict_decision := verdict_decision i;
     verdict_confidence := verdict_confidence i;
     verdict_reasoning := verdict_reasoning i;
     thehive_case_id := thehive_case_id i; threat_actor := threat_actor i;
     tags := tags i |}.
Definition set_observable_count v (i : InvestigationReadModel) :=
  {| inv_id := inv_id i; title := title i; status := status i;
     phase := phase i; created_at := created_at i;
     updated_at := updated_at i; closed_at := closed_at i;
     time_to_triage_seconds := time_to_triage_seconds i;
     time_to_verdict_seconds := time_to_verdict_seconds i;
     alert_count := alert_count i; observable_count := v;
     malicious_count := malicious_count i;
     suspicious_count := suspicious_count i; clean_count := clean_count i;
     max_severity := max_severity i; verdict_decision := verdict_decision i;
     verdict_confidence := verdict_confidence i;
     verdict_reasoning := verdict_reasoning i;
     thehive_case_id := thehive_case_id i; threat_actor := threat_actor i;
     tags := tags i |}.
Definition set_malicious_count v (i : InvestigationReadModel) :=
  {| inv_id := inv_id i; title := title i; status := status i;
     phase := phase i; created_at := created_at i;
     updated_at := updated_at i; closed_at := closed_at i;
     time_to_triage_seconds := time_to_triage_seconds i;
     time_to_verdict_seconds := time_to_verdict_seconds i;
     alert_count := alert_count i; observable_count := observable_count i;
     malicious_count := v;
     suspicious_count := suspicious_count i; clean_count := clean_count i;
     max_severity := max_severity i; verdict_decision := verdict_decision i;
     verdict_confidence := verdict_confidence i;
     verdict_reasoning := verdict_reasoning i;
     thehive_case_id := thehive_case_id i; threat_actor := threat_actor i;
     tags := tags i |}.
Definition set_max_severity v (i : InvestigationReadModel) :=
  {| inv_id := inv_id i; title := title i; status := status i;
     phase := phase i; created_at := created_at i;
     updated_at := updated_at i; closed_at := closed_at i;
     time_to_triage_seconds := time_to_triage_seconds i;
     time_to_verdict_seconds := time_to_verdict_seconds i;
     alert_count := alert_count i; observable_count := observable_count i;
     malicious_count := malicious_count i;
     suspicious_count := suspicious_count i; clean_count := clean_count i;
     max_severity := v; verdict_decision := verdict_decision i;
     verdict_confidence := verdict_confidence i;
     verdict_reasoning := verdict_reasoning i;
     thehive_case_id := thehive_case_id i; threat_actor := threat_actor i;
     tags := tags i |}.
Definition set_verdict_decision v (i : InvestigationReadModel) :=
  {| inv_id := inv_id i; title := title i; status := status i;
     phase := phase i; created_at := created_at i;
     updated_at := updated_at i; closed_at := closed_at i;
     time_to_triage_seconds := time_to_triage_seconds i;
     time_to_verdict_seconds := time_to_verdict_seconds i;
     alert_count := alert_count i; observable_count := observable_count i;
     malicious_count := malicious_count i;
     suspicious_count := suspicious_count i; clean_count := clean_count i;
     max_severity := max_severity i; verdict_decision := v;
     verdict_confidence := verdict_confidence i;
     verdict_reasoning := verdict_reasoning i;
     thehive_case_id := thehive_case_id i; threat_actor := threat_actor i;
     tags := tags i |}.
Definition set_verdict_confidence v (i : InvestigationReadModel) :=
  {| inv_id := inv_id i; title := title i; status := status i;
     phase := phase i; created_at := created_at i;
     updated_at := updated_at i; closed_at := closed_at i;
     time_to_triage_seconds := time_to_triage_seconds i;
     time_to_verdict_seconds := time_to_verdict_seconds i;
     alert_count := alert_count i; observable_count := observable_count i;
     malicious_count := malicious_count i;
     suspicious_count := suspicious_count i; clean_count := clean_count i;
     max_severity := max_severity i; verdict_decision := verdict_decision i;
     verdict_confidence := v;
     verdict_reasoning := verdict_reasoning i;
     thehive_case_id := thehive_case_id i; threat_actor := threat_actor i;
     tags := tags i |}.
Definition set_thehive_case_id v (i : InvestigationReadModel) :=
  {| inv_id := inv_id i; title := title i; status := status i;
     phase := phase i; created_at := created_at i;
     updated_at := updated_at i; closed_at := closed_at i;
     time_to_triage_seconds := time_to_triage_seconds i;
     time_to_verdict_seconds := time_to_verdict_seconds i;
     alert_count := alert_count i; observable_count := observable_count i;
     malicious_count := malicious_count i;
     suspicious_count := suspicious_count i; clean_count := clean_count i;
     max_severity := max_severity i; verdict_decision := verdict_decision i;
     verdict_confidence := verdict_confidence i;
     verdict_reasoning := verdict_reasoning i;
     thehive_case_id := v; threat_actor := threat_actor i;
     tags := tags i |}.

(** A handler's effect on the read-model object: the object as the
    handler leaves it, and the exception if it raised on the way. *)
Definition effect : Type := option exn * InvestigationReadModel.

(** [int(delta.total_seconds())] for [delta = later - earlier]. *)
Definition seconds_between (later earlier : Z) : Z :=
  Z.quot (later - earlier) 1000000.

Definition severity_order (s : string) : Z :=
  if String.eqb s "low" then 1
  else if String.eqb s "medium" then 2
  else if String.eqb s "high" then 3
  else if String.eqb s "critical" then 4
  else 0.

Definition _compare_severity (s1 s2 : value) : exn + Z :=
  match value_lower s1 with
  | inl ex => inl ex
  | inr l1 =>
      let v1 := severity_order l1 in
      match value_lower s2 with
      | inl ex => inl ex
      | inr l2 =>
          let v2 := severity_order l2 in
          if v1 <? v2 then inr (-1)
          else if v2 <? v1 then inr 1
          else inr 0
      end
  end.

(** [if i.time_to_triage_seconds is None and i.created_at:] (a datetime
    is always truthy). *)
Definition set_triage_if_unset (ts : Z) (i : InvestigationReadModel) :=
  match time_to_triage_seconds i with
  | None =>
      set_time_to_triage_seconds (Some (seconds_between ts (created_at i))) i
  | Some _ => i
  end.

Definition _project_investigation_created (e : Event) i : effect :=
  let i := set_created_at (timestamp e) i in
  let i := set_updated_at (timestamp e) i in
  let i := set_status "pending" i in
  let i := set_phase (VStr "triage") i in
  let i := if has_key (data e) "title"
           then set_title (get (data e) "title") i else i in
  let i := if has_key (data e) "max_severity"
           then set_max_severity (get (data e) "max_severity") i else i in
  (None, i).

Definition _project_investigation_started (e : Event) i : effect :=
  let i := set_status "in_progress" i in
  let i := set_updated_at (timestamp e) i in
  let i := if has_key (data e) "title"
           then set_title (get (data e) "title") i else i in
  (None, i).

Definition _project_investigation_paused (e : Event) i : effect :=
  let i := set_status "paused" i in
  (None, set_updated_at (timestamp e) i).

Definition _project_investigation_resumed (e : Event) i : effect :=
  let i := set_status "in_progress" i in
  (None, set_updated_at (timestamp e) i).

Definition _project_investigation_cancelled (e : Event) i : effect :=
  let i := set_status "cancelled" i in
  let i := set_closed_at (Some (timestamp e)) i in
  let i := set_updated_at (timestamp e) i in
  let i := set_phase (VStr "closed") i in
  (None, set_triage_if_unset (timestamp e) i).

Definition _project_alert_correlated (e : Event) i : effect :=
  let i := set_alert_count (alert_count i + 1) i in
  let i := set_updated_at (timestamp e) i in
  let severity := get (data e) "severity" in
  if truthy severity then
    match max_severity i with
    | VNone => (None, set_max_severity severity i)
    | current =>
        match _compare_severity severity current with
        | inl ex => (Some ex, i)
        | inr c =>
            if 0 <? c then (None, set_max_severity severity i) else (None, i)
        end
    end
  else (None, i).

Definition _project_observable_extracted (e : Event) i : effect :=
  let i := set_observable_count (observable_count i + 1) i in
  (None, set_updated_at (timestamp e) i).

Definition _project_enrichment_completed (e : Event) i : effect :=
  let i := set_updated_at (timestamp e) i in
  let is_malicious := get_or (data e) "is_malicious" (VBool false) in
  if truthy is_malicious
  then (None, set_malicious_count (malicious_count i + 1) i)
  else (None, i).

Definition _project_verdict_rendered (e : Event) i : effect :=
  let i := set_updated_at (timestamp e) i in
  let i := set_phase (VStr "verdict") i in
  let i := set_verdict_decision (get (data e) "decision") i in
  let i := set_verdict_confidence (get (data e) "confidence") i in
  (None,
   set_time_to_verdict_seconds
     (Some (seconds_between (timestamp e) (created_at i))) i).

Definition _project_investigation_escalated (e : Event) i : effect :=
  let i := set_status "escalated" i in
  let i := set_phase (VStr "escalation") i in
  (None, set_updated_at (timestamp e) i).

Definition _project_investigation_auto_closed (e : Event) i : effect :=
  let i := set_status "auto_closed" i in
  let i := set_closed_at (Some (timestamp e)) i in
  let i := set_updated_at (timestamp e) i in
  (None, set_phase (VStr "closed") i).

Definition _project_investigation_closed (e : Event) i : effect :=
  match value_lower (py_or (get (data e) "resolution") (VStr EmptyString)) with
  | inl ex => (Some ex, i)
  | inr resolution =>
  match value_lower (py_or (get (data e) "verdict_decision") (VStr EmptyString)) with
  | inl ex => (Some ex, i)
  | inr verdict_decision =>
      let thehive_case_id := get (data e) "thehive_case_id" in
      let i := if truthy thehive_case_id
               then set_thehive_case_id thehive_case_id i else i in
      let i := if truthy (VStr verdict_decision)
               then set_verdict_decision (VStr verdict_decision) i else i in
      let i :=
        if truthy (Models.thehive_case_id i) then set_status "escalated" i
        else if contains "rejected" resolution then set_status "rejected" i
        else if String.eqb verdict_decision "close"
                && contains "closed by ai verdict" resolution
             then set_status "auto_closed" i
        else set_status "closed" i in
      let i := set_closed_at (Some (timestamp e)) i in
      let i := set_updated_at (timestamp e) i in
      let i := set_phase (VStr "closed") i in
      (None, set_triage_if_unset (timestamp e) i)
  end
  end.

Definition _project_thehive_case_created (e : Event) i : effect :=
  let i := set_thehive_case_id (get (data e) "case_id") i in
  let i := set_status "escalated" i in
  let i := set_phase (VStr "escalation") i in
  (None, set_updated_at (timestamp e) i).

Definition _project_phase_changed (e : Event) i : effect :=
  let new_phase :=
    py_or (get (data e) "new_phase")
          (py_or (get (data e) "to_phase") (get (data e) "phase")) in
  let i := if truthy new_phase then set_phase new_phase i else i in
  let i := set_updated_at (timestamp e) i in
  if eq_str new_phase "verdict"
  then (None, set_triage_if_unset (timestamp e) i)
  else (None, i).

Definition _project_human_review_requested (e : Event) i : effect :=
  let i := set_phase (VStr "human_review") i in
  let i := if String.eqb (status i) "pending"
           then set_status "in_progress" i else i in
  (None, set_updated_at (timestamp e) i).

(** The handler [project] routes an event type to, when that handler
    works on the investigation row; the analyzer and human-decision
    handlers do not load it. *)
Definition handler_of (etype : string)
  : option (Event -> InvestigationReadModel -> effect) :=
  if String.eqb etype INVESTIGATION_CREATED
  then Some _project_investigation_created
  else if String.eqb etype INVESTIGATION_STARTED
  then Some _project_investigation_started
  else if String.eqb etype INVESTIGATION_PAUSED
  then Some _project_investigation_paused
  else if String.eqb etype INVESTIGATION_RESUMED
  then Some _project_investigation_resumed
  else if String.eqb etype INVESTIGATION_CANCELLED
  then Some _project_investigation_cancelled
  else if String.eqb etype ALERT_CORRELATED
  then Some _project_alert_correlated
  else if String.eqb etype OBSERVABLE_EXTRACTED
  then Some _project_observable_extracted
  else if String.eqb etype ENRICHMENT_COMPLETED
  then Some _project_enrichment_completed
  else if String.eqb etype VERDICT_RENDERED
  then Some _project_verdict_rendered
  else if String.eqb etype INVESTIGATION_ESCALATED
  then Some _project_investigation_escalated
  else if String.eqb etype INVESTIGATION_AUTO_CLOSED
  then Some _project_investigation_auto_closed
  else if String.eqb etype INVESTIGATION_CLOSED
  then Some _project_investigation_closed
  else if String.eqb etype THEHIVE_CASE_CREATED
  then Some _project_thehive_case_created
  else if String.eqb etype ANALYZER_INVOKED then None
  else if String.eqb etype ANALYZER_COMPLETED then None
  else if String.eqb etype PHASE_CHANGED
  then Some _project_phase_changed
  else if String.eqb etype HUMAN_REVIEW_REQUESTED
  then Some _project_human_review_requested
  else if String.eqb etype HUMAN_DECISION_RECEIVED then None
  else None.

Definition _get_or_create_investigation (aggregate : UUID)
  : M InvestigationReadModel :=
  t ← read_db;
  match investigations t !! aggregate with
  | Some i => ret i
  | None =>
      now_created ← utcnow;
      now_updated ← utcnow;
      let i := new_investigation aggregate now_created now_updated in
      write_db {| events := events t;
                  investigations := <[aggregate := i]> (investigations t) |} ;;
      ret i
  end.

(** The handler mutates the loaded object in place: what it wrote
    before raising stays in the session. *)
Definition store_investigation (i : InvestigationReadModel) : M unit :=
  t ← read_db;
  write_db {| events := events t;
              investigations := <[inv_id i := i]> (investigations t) |}.

Definition project (e : Event) : M unit :=
  match handler_of (event_type e) with
  | Some handler =>
      i ← _get_or_create_investigation (aggregate_id e);
      let '(raised, i') := handler e i in
      store_investigation i' ;;
      match raised with
      | Some ex => raise ex
      | None => ret tt
      end
  | None => ret tt
  end.

(** *** Final status on INVESTIGATION_CLOSED

    [payload_text e key] is [(event.data.get(key) or "").lower()]. *)
Definition payload_text (e : Event) (key : string) : exn + string :=
  value_lower (py_or (get (data e) key) (VStr EmptyString)).

(** The derivation as the specification words it (matching taken on the
    lower-cased texts, as the handler does): a case id, else a resolution
    containing "rejected", else verdict decision close and a resolution
    starting with "closed by AI verdict", else closed. *)
Definition final_status_by_spec
    (case_present : bool) (resolution verdict_decision : string) : string :=
  if case_present then "escalated"
  else if contains "rejected" resolution then "rejected"
  else if String.eqb verdict_decision "close"
          && startswith "closed by ai verdict" resolution
       then "auto_closed"
  else "closed".

(** The derivation the handler makes: the third rule looks for the phrase
    anywhere in the resolution. *)
Definition final_status
    (case_present : bool) (resolution verdict_decision : string) : string :=
  if case_present then "escalated"
  else if contains "rejected" resolution then "rejected"
  else if String.eqb verdict_decision "close"
          && contains "closed by ai verdict" resolution
       then "auto_closed"
  else "closed".

Definition closed_event (resolution verdict_decision : string) : Event :=
  {| event_id := 7; aggregate_id := 1; aggregate_type := "Investigation";
     event_type := INVESTIGATION_CLOSED; version := 3; timestamp := 5000000;
     data := {[ "status" := VStr "closed";
                "resolution" := VStr resolution;
                "verdict_decision" := VStr verdict_decision;
                "thehive_case_id" := VNone;
                "duration_seconds" := VInt 5 ]};
     event_metadata := ∅; idempotency_key := None |}.

(** A closing event whose resolution holds the phrase after other words. *)
Definition phrase_inside_event : Event :=
  closed_event "Investigation closed by AI verdict" "close".

(** *** Severity ranks and the row along a sequence of events

    [sev_rank] is the rank [_compare_severity] gives a stored severity
    (0 for an unknown word; a missing or non-text severity is ranked 0 as
    well).  [apply_event] is the loaded row after [project] has run the
    handler of the event's type on it, [apply_events] the row after a
    sequence of events. *)
Definition sev_rank (v : value) : Z :=
  match v with
  | VStr s => severity_order (lower s)
  | _ => 0
  end.

Definition apply_event (e : Event) (i : InvestigationReadModel)
  : InvestigationReadModel :=
  match handler_of (event_type e) with
  | Some handler => snd (handler e i)
  | None => i
  end.

Definition apply_events (es : list Event) (i : InvestigationReadModel)
  : InvestigationReadModel :=
  fold_left (fun i e => apply_event e i) es i.

(** INVESTIGATION_CREATED with a [max_severity] entry copies it. *)
Definition overwrites_severity (e : Event) : bool :=
  String.eqb (event_type e) INVESTIGATION_CREATED
  && has_key (data e) "max_severity".

Definition plain_event (etype : string) (ver ts : Z)
    (payload : gmap string value) : Event :=
  {| event_id := ver; aggregate_id := 1; aggregate_type := "Investigation";
     event_type := etype; version := ver; timestamp := ts;
     data := payload; event_metadata := ∅; idempotency_key := None |}.

Definition critical_alert : Event :=
  plain_event ALERT_CORRELATED 1 1000000
    {[ "alert_id" := VStr "a1"; "severity" := VStr "critical" ]}.

Definition low_alert : Event :=
  plain_event ALERT_CORRELATED 2 2000000
    {[ "alert_id" := VStr "a2"; "severity" := VStr "low" ]}.

Definition created_low : Event :=
  plain_event INVESTIGATION_CREATED 2 2000000
    {[ "title" := VStr "Port scan"; "alert_ids" := VList [VStr "a2"];
       "max_severity" := VStr "low" ]}.

End Projector.

(** ** Projecting store ([ProjectingEventStore]) *)

Module ProjectingEventStore.

Definition append
    (aggregate : UUID) (etype : string) (payload : gmap string value)
    (metadata : option (gmap string value)) (atype : string)
    (expected_version : option Z) (key : option string) : M Event :=
  event ← EventStore.append aggregate etype payload metadata atype
                            expected_version key;
  Projector.project event ;;
  ret event.

Definition get_events := EventStore.get_events.
Definition get_latest_version := EventStore.get_latest_version.

End ProjectingEventStore.

(** ** The online path and the replay loop

    Online, callers reach the store through [ProjectingEventStore.append],
    one call after the other.  The replay is the recovery loop of
    [tests/test_integration_recovery.py]: read [get_events(aggregate_id)]
    and feed the events to [Projector.project] in order, after the read
    model has been deleted. *)

Module Replay.

Record call : Type := mkCall {
  c_aggregate_id : UUID;
  c_event_type : string;
  c_data : gmap string value;
  c_metadata : option (gmap string value);
  c_aggregate_type : string;
  c_expected_version : option Z;
  c_idempotency_key : option string
}.

Definition online (calls : list call) : M unit :=
  for_each calls (fun c =>
    ProjectingEventStore.append
      (c_aggregate_id c) (c_event_type c) (c_data c) (c_metadata c)
      (c_aggregate_type c) (c_expected_version c) (c_idempotency_key c) ;;
    ret tt).

(** [delete(InvestigationReadModel)] followed by [commit()]. *)
Definition delete_read_models : M unit :=
  t ← read_db;
  write_db {| events := events t; investigations := ∅ |} ;;
  commit.

Definition replay (aggregate : UUID) : M unit :=
  stored ← EventStore.get_events aggregate None None;
  for_each stored Projector.project.

(** *** The row of an aggregate as a function of its events

    [stream rows a] is the part of the events table that belongs to the
    aggregate, in insertion order.  [row_after now_created now_updated e r]
    is what one run of [Projector.project e] does to the aggregate's row
    [r] ([None]: no row yet), with the exception it raises if any; the two
    clock readings are used only when the row has to be created.
    [rebuilt] folds it over a stream from the missing row, giving [None]
    when a projection raises. *)
Definition stream (rows : list Event) (aggregate : UUID) : list Event :=
  filter (fun r => aggregate_id r = aggregate) rows.

Definition row_after (now_created now_updated : Z) (e : Event)
    (r : option InvestigationReadModel)
  : option exn * option InvestigationReadModel :=
  match Projector.handler_of (event_type e) with
  | Some handler =>
      let i := default (new_investigation (aggregate_id e)
                          now_created now_updated) r in
      (fst (handler e i), Some (snd (handler e i)))
  | None => (None, r)
  end.

Definition rebuild_step (acc : option (option InvestigationReadModel))
    (e : Event) : option (option InvestigationReadModel) :=
  match acc with
  | Some r =>
      match row_after 0 0 e r with
      | (None, r') => Some r'
      | (Some _, _) => None
      end
  | None => None
  end.

Definition rebuilt (es : list Event)
  : option (option InvestigationReadModel) :=
  fold_left rebuild_step es (Some None).

(** The aggregate's first event is INVESTIGATION_CREATED. *)
Definition starts_with_created (es : list Event) : Prop :=
  match es with
  | [] => True
  | e :: _ => event_type e = Projector.INVESTIGATION_CREATED
  end.

(** Every row sits under its own id, and the versions of each aggregate
    grow in insertion order. *)
Definition rows_keyed (t : Tables) : Prop :=
  forall a i, investigations t !! a = Some i -> inv_id i = a.

Fixpoint increasing (vs : list Z) : Prop :=
  match vs with
  | [] => True
  | v :: rest => Forall (fun x => v < x) rest /\ increasing rest
  end.

Definition versions_increasing (t : Tables) : Prop :=
  forall a, increasing (map version (stream (events t) a)).

(** The invariant of the online path: every aggregate whose stream starts
    with its created event has the row that the stream rebuilds. *)
Definition projected (t : Tables) : Prop :=
  rows_keyed t /\ versions_increasing t
  /\ forall a, starts_with_created (stream (events t) a) ->
               rebuilt (stream (events t) a) = Some (investigations t !! a).

(** Sample calls: an alert for aggregate 1 that has no created event, and
    the retried creation of aggregate 1 around its start. *)
Definition alert_call : call :=
  {| c_aggregate_id := 1; c_event_type := Projector.ALERT_CORRELATED;
     c_data := {[ "alert_id" := VStr "a1"; "severity" := VStr "high" ]};
     c_metadata := None; c_aggregate_type := "Investigation";
     c_expected_version := None; c_idempotency_key := None |}.

Definition created_call : call :=
  {| c_aggregate_id := 1; c_event_type := Projector.INVESTIGATION_CREATED;
     c_data := {[ "title" := VStr "Port scan"; "max_severity" := VStr "low" ]};
     c_metadata := None; c_aggregate_type := "Investigation";
     c_expected_version := None;
     c_idempotency_key := Some "inv-created-1" |}.

Definition started_call : call :=
  {| c_aggregate_id := 1; c_event_type := Projector.INVESTIGATION_STARTED;
     c_data := ∅; c_metadata := None; c_aggregate_type := "Investigation";
     c_expected_version := None;
     c_idempotency_key := Some "inv-started-1" |}.

(** The world after the calls, then after the read model is deleted and
    the aggregate replayed. *)
Definition after_online (calls : list call) : World :=
  snd (online calls (EventStore.empty_world 0)).

Definition after_replay (calls : list call) (aggregate : UUID) : World :=
  snd ((delete_read_models ;; replay aggregate) (after_online calls)).

End Replay.

(** ** Human review node ([graph/hil.py])

    The runtime collaborators are taken as they answer: the emitter by
    whether an emission's [try] block completes, the HIL service by the
    outcome of [request_approval], [interrupt()] by whether it suspends
    the graph or hands back the resume value.  The node is run on a state
    whose investigation and verdict entries build valid models. *)

Module Hil.

Inductive HumanDecision : Type := APPROVE | REJECT | MORE_INFO.

Definition decision_value (d : HumanDecision) : string :=
  match d with
  | APPROVE => "approve"
  | REJECT => "reject"
  | MORE_INFO => "more_info"
  end.

(** What the node hands to the emitter. *)
Inductive emission : Type :=
| HumanReviewRequested
    (investigation_id : value) (reason : string)
    (verdict_decision verdict_confidence : value)
| HumanDecisionReceived
    (investigation_id : value) (decision : string)
    (feedback reviewer : value).

Definition is_decision_received (m : emission) : bool :=
  match m with
  | HumanDecisionReceived _ _ _ _ => true
  | HumanReviewRequested _ _ _ _ => false
  end.

(** [accepts m]: the call that emits [m] returns.  For the first emission
    the call takes [str(...)] and [float(...)] of the verdict's decision
    and confidence, under the same [try]. *)
Record EventEmitter : Type := { accepts : emission -> bool }.

Inductive approval : Type :=
| HILResponse (decision : HumanDecision) (feedback : value)
              (reviewer backend : string)
| HILTimeoutError
| HILConnectionError (message : string)
| OtherError (message : string).

Record HILService : Type := {
  is_connected : bool;
  request_approval : approval
}.

Record configurable : Type := {
  event_emitter : option EventEmitter;
  hil_service : option HILService;
  hil_backend : value
}.

Inductive interrupt_result : Type :=
| Suspends                      (* raises GraphInterrupt *)
| Resumed (resume_value : value)
| InterruptFails (message : string).

(** What a run of the node depends on besides the state: the terminal,
    [interrupt()], the clock, and three library functions: [UUID(text)]
    ([None] when it raises [ValueError]) and the validation pydantic runs
    in building an [Investigation] from a dictionary and, on the values of
    its fields, a [Verdict]. *)
Record environment : Type := {
  stdin_isatty : bool;
  cli_input : option string;     (* [None]: [input()] raises *)
  interrupt : interrupt_result;
  now_isoformat : string;
  UUID : string -> option value;
  Investigation_validates : gmap string value -> bool;
  Verdict_values_validate : gmap string value -> bool
}.

Definition _HUMAN_REVIEW_REQUESTED_FLAG : string :=
  "_human_review_requested_emitted".

(** The white space [str.strip()] removes: U+0009 to U+000D, U+001C to
    U+0020, U+0085, U+00A0, U+1680, U+2000 to U+200A, U+2028, U+2029,
    U+202F, U+205F and U+3000, in one, two or three bytes. *)
Definition is_space (c : ascii) : bool :=
  let n := N_of_ascii c in
  (((9 <=? n) && (n <=? 13)) || ((28 <=? n) && (n <=? 32)))%N.

Definition is_space2 (c1 c2 : ascii) : bool :=
  is_byte c1 194 && (is_byte c2 133 || is_byte c2 160).

Definition is_space3 (c1 c2 c3 : ascii) : bool :=
  let n := N_of_ascii c3 in
  (is_byte c1 225 && is_byte c2 154 && is_byte c3 128)
  || (is_byte c1 226 && is_byte c2 128
      && (((128 <=? n) && (n <=? 138))
          || (n =? 168) || (n =? 169) || (n =? 175))%N)
  || (is_byte c1 226 && is_byte c2 129 && is_byte c3 159)
  || (is_byte c1 227 && is_byte c2 128 && is_byte c3 128).

(** [s] is one white-space character. *)
Definition is_one_space (s : string) : bool :=
  match s with
  | String c1 EmptyString => is_space c1
  | String c1 (String c2 EmptyString) => is_space2 c1 c2
  | String c1 (String c2 (String c3 EmptyString)) => is_space3 c1 c2 c3
  | _ => false
  end.

Fixpoint lstrip (s : string) : string :=
  match s with
  | EmptyString => EmptyString
  | String c1 s1 =>
      if is_space c1 then lstrip s1
      else
        match s1 with
        | String c2 s2 =>
            if is_space2 c1 c2 then lstrip s2
            else
              match s2 with
              | String c3 s3 => if is_space3 c1 c2 c3 then lstrip s3 else s
              | EmptyString => s
              end
        | EmptyString => s
        end
  end.

Fixpoint rstrip (s : string) : string :=
  match s with
  | EmptyString => EmptyString
  | String c s' =>
      let t := String c (rstrip s') in
      if is_one_space t then EmptyString else t
  end.

Definition strip (s : string) : string := rstrip (lstrip s).

Definition _coerce_human_decision (v : value) : HumanDecision :=
  match v with
  | VStr s =>
      let normalized := lower (strip s) in
      if String.eqb normalized (decision_value APPROVE) then APPROVE
      else if String.eqb normalized (decision_value REJECT) then REJECT
      else if String.eqb normalized (decision_value MORE_INFO) then MORE_INFO
      else MORE_INFO
  | _ => MORE_INFO
  end.

(** [get_investigation_id_from_state]: an id that is a string goes
    through [UUID(...)], which raises on a text that is no UUID. *)
Definition get_investigation_id_from_state
    (env : environment) (st : gmap string value) : exn + option value :=
  match get_or st "investigation" (VDict ∅) with
  | VDict investigation =>
      let inv_id := get investigation "id" in
      if truthy inv_id then
        match inv_id with
        | VStr text =>
            match UUID env text with
            | Some id => inr (Some id)
            | None => inl ValueError
            end
        | _ => inr (Some inv_id)
        end
      else inr None
  | _ => inr None
  end.

(** The fields [Verdict] declares without a default. *)
Definition Verdict_required : list string :=
  ["decision"; "confidence"; "threat_assessment"; "evidence_strength";
   "potential_impact"; "urgency"; "recommendation"].

(** Building a [Verdict] from the dictionary returns: no required field
    is missing and the values validate; otherwise it raises
    [ValidationError]. *)
Definition Verdict_validates
    (env : environment) (data : gmap string value) : bool :=
  forallb (has_key data) Verdict_required && Verdict_values_validate env data.

(** [type(v).__name__] *)
Definition type_name (v : value) : string :=
  match v with
  | VNone => "NoneType"
  | VBool _ => "bool"
  | VInt _ => "int"
  | VFloat _ => "float"
  | VStr _ => "str"
  | VList _ => "list"
  | VDict _ => "dict"
  end.

(** [str(e)] of the [AttributeError] for [v.attr]. *)
Definition no_attribute (v : value) (attr : string) : string :=
  "'" ++ type_name v ++ "' object has no attribute '" ++ attr ++ "'".

(** The node's [investigation]: the model built from a dictionary, or
    the state's value itself when that is no dictionary; such a value has
    no attribute [id], and no attribute [title] unless it is a string
    ([str.title]). *)
Inductive investigation_object : Type :=
| Model
| NotAModel (v : value).

Definition get_emitter_from_config (cfg : option configurable)
  : option EventEmitter :=
  match cfg with
  | Some c => event_emitter c
  | None => None
  end.

(** [try: await emitter.emit_...(...) except Exception: log] *)
Definition try_emit (em : EventEmitter) (m : emission) : list emission :=
  if accepts em m then [m] else [].

(** The prompt reads [investigation.title], then [investigation.id],
    before [input()] is called. *)
Definition _prompt_cli_decision
    (env : environment) (investigation : investigation_object)
  : string + (HumanDecision * value) :=
  match investigation with
  | NotAModel (VStr text) => inl (no_attribute (VStr text) "id")
  | NotAModel v => inl (no_attribute v "title")
  | Model =>
      match cli_input env with
      | None => inl "EOF when reading a line"
      | Some line =>
          let choice := lower (strip line) in
          if String.eqb choice "a" || String.eqb choice "approve"
          then inr (APPROVE, VNone)
          else if String.eqb choice "r" || String.eqb choice "reject"
          then inr (REJECT, VNone)
          else inr (MORE_INFO, VNone)
      end
  end.

(** The first log call reads [investigation.id], outside the [try]. *)
Definition _present_via_hil_service
    (svc : HILService) (investigation : investigation_object)
  : string + (HumanDecision * value) :=
  match investigation with
  | NotAModel v => inl (no_attribute v "id")
  | Model =>
      match request_approval svc with
      | HILResponse decision feedback _ _ => inr (decision, feedback)
      | HILTimeoutError =>
          inr (MORE_INFO, VStr "HIL review timed out - please review manually")
      | HILConnectionError e =>
          inr (MORE_INFO, VStr ("HIL connection error: " ++ e))
      | OtherError e => inl e
      end
  end.

(** The outcome of a review step: [GraphInterrupt], another exception
    (with its message), or decision, feedback, reviewer and the
    emit-event flag. *)
Inductive review : Type :=
| Interrupted
| Failed (message : string)
| Decided (decision : HumanDecision) (feedback reviewer : value)
          (emit_event : bool).

(** The argument of [interrupt(...)] reads [investigation.id] inside the
    [try], so without a model the call counts as a failed interrupt. *)
Definition _handle_noninteractive_review
    (env : environment) (hil_backend : value)
    (investigation : investigation_object) : review :=
  let cli_done :=
    if eq_str hil_backend "cli" && stdin_isatty env
    then Some (_prompt_cli_decision env investigation) else None in
  match cli_done with
  | Some (inr (decision, feedback)) => Decided decision feedback VNone true
  | Some (inl e) => Failed e
  | None =>
      let interrupted :=
        match investigation with
        | Model => interrupt env
        | NotAModel v => InterruptFails (no_attribute v "id")
        end in
      match interrupted with
      | Suspends => Interrupted
      | InterruptFails _ =>
          Decided MORE_INFO
            (VStr "HIL interrupt failed - manual follow-up required")
            VNone true
      | Resumed resume_value =>
          let payload :=
            match resume_value with
            | VDict d => d
            | other => {[ "decision" := other ]}
            end in
          let decision := _coerce_human_decision (get payload "decision") in
          let feedback := get payload "feedback" in
          let reviewer := get payload "reviewer" in
          let source := get payload "source" in
          let emit_event :=
            negb (eq_str source "dashboard" || eq_str source "ui") in
          Decided decision feedback reviewer emit_event
      end
  end.

(** The first emission of the node, under its [try]: the state after it
    and what the emitter took. *)
Definition emit_review_requested
    (emitter : option EventEmitter) (investigation_id : option value)
    (verdict_data : value) (st : gmap string value)
  : gmap string value * list emission :=
  match emitter, investigation_id with
  | Some em, Some inv_id =>
      if negb (truthy (get st _HUMAN_REVIEW_REQUESTED_FLAG)) then
        (* [None]: [verdict_data.get] raises inside the [try] *)
        let fields :=
          if truthy verdict_data then
            match verdict_data with
            | VDict d => Some (get_or d "decision" (VStr "unknown"),
                               get_or d "confidence" (VFloat 0))
            | _ => None
            end
          else Some (VStr "unknown", VFloat 0) in
        match fields with
        | Some (verdict_decision, verdict_confidence) =>
            let m := HumanReviewRequested inv_id
                       "Verdict requires human approval before escalation"
                       verdict_decision verdict_confidence in
            if accepts em m
            then (<[_HUMAN_REVIEW_REQUESTED_FLAG := VBool true]> st, [m])
            else (st, [])
        | None => (st, [])
        end
      else (st, [])
  | _, _ => (st, [])
  end.

(** Line 75: the [Investigation] built from [investigation_data] if that
    is a dictionary, else [investigation_data] itself; [None]:
    [ValidationError]. *)
Definition build_investigation
    (env : environment) (investigation_data : value)
  : option investigation_object :=
  match investigation_data with
  | VDict data =>
      if Investigation_validates env data then Some Model else None
  | v => Some (NotAModel v)
  end.

(** Line 76: the [Verdict] built from [verdict_data] if that is a
    dictionary and not empty, else [None]; [false]: [ValidationError]. *)
Definition build_verdict (env : environment) (verdict_data : value) : bool :=
  match verdict_data with
  | VDict data =>
      if truthy verdict_data then Verdict_validates env data else true
  | _ => true
  end.

Definition human_review_node
    (env : environment) (st : gmap string value)
    (run_config : option configurable)
  : (exn + gmap string value) * list emission :=
  let st := <["awaiting_human_approval" := VBool true]> st in
  let investigation_data := get_or st "investigation" (VDict ∅) in
  let verdict_data := get_or st "verdict" (VDict ∅) in
  let emitter := get_emitter_from_config run_config in
  match get_investigation_id_from_state env st with
  | inl e => (inl e, [])
  | inr investigation_id =>
  let '(st, requested) :=
    emit_review_requested emitter investigation_id verdict_data st in
  match build_investigation env investigation_data with
  | None => (inl ValidationError, requested)
  | Some investigation =>
  if negb (build_verdict env verdict_data)
  then (inl ValidationError, requested)
  else
  let service := match run_config with
                 | Some c => hil_service c
                 | None => None
                 end in
  let backend := match run_config with
                 | Some c => py_or (hil_backend c) (VStr "cli")
                 | None => VStr "cli"
                 end in
  let reviewed :=
    match service with
    | Some svc =>
        if is_connected svc then
          match _present_via_hil_service svc investigation with
          | inr (decision, feedback) => Decided decision feedback VNone true
          | inl e => Failed e
          end
        else _handle_noninteractive_review env backend investigation
    | None => _handle_noninteractive_review env backend investigation
    end in
  match reviewed with
  | Interrupted => (inl GraphInterrupt, requested)
  | Failed e =>
      let st := <["human_decision" := VStr (decision_value MORE_INFO)]> st in
      let st := <["human_feedback" := VStr ("Error during review: " ++ e)]> st in
      let st := <["awaiting_human_approval" := VBool false]> st in
      (inr (<["last_updated" := VStr (now_isoformat env)]> st), requested)
  | Decided decision feedback reviewer emit_decision_event =>
      let st := <["human_decision" := VStr (decision_value decision)]> st in
      let st := <["human_feedback" := feedback]> st in
      let st := <["awaiting_human_approval" := VBool false]> st in
      let decided :=
        match emitter, investigation_id with
        | Some em, Some inv_id =>
            if emit_decision_event
            then try_emit em (HumanDecisionReceived inv_id
                                (decision_value decision) feedback reviewer)
            else []
        | _, _ => []
        end in
      (inr (<["last_updated" := VStr (now_isoformat env)]> st),
       (requested ++ decided)%list)
  end
  end
  end.

(** The node as the graph runs it.  [build_secops_graph] registers the
    function itself, [graph.add_node("human_review", human_review_node)],
    and LangGraph hands the run's configuration to a node only through a
    parameter named [config]; this one is named [run_config] and keeps
    its default, [None]. *)
Definition human_review (env : environment) (st : gmap string value)
  : (exn + gmap string value) * list emission :=
  human_review_node env st None.

(** *** A dashboard decision reaching the node

    The resume payload built by the orchestrator's resume loop, an emitter
    that persists what it is given, a chat service that finds the review
    already decided on the dashboard (the response [SlackHILBackend]
    builds in that case), and a state under review. *)
Definition dashboard_payload : value :=
  VDict {[ "decision" := VStr "approve"; "feedback" := VNone;
           "reviewer" := VStr "analyst"; "source" := VStr "dashboard" ]}.

Definition persisting_emitter : EventEmitter := {| accepts := fun _ => true |}.

Definition chat_after_dashboard : HILService :=
  {| is_connected := true;
     request_approval :=
       HILResponse APPROVE (VStr "Decision made via dashboard: approved")
                   "dashboard" "dashboard" |}.

Definition review_state : gmap string value :=
  {[ "investigation" :=
       VDict {[ "id" := VStr "0b9d6f0e-5a57-4c58-9d0e-3f6d2c1a7e11";
                "title" := VStr "Malware detected on web-01" ]};
     "verdict" :=
       VDict {[ "decision" := VStr "escalate";
                "confidence" := VFloat 4606281698874543309;
                "threat_assessment" := VStr "Known malware family";
                "evidence_strength" := VStr "strong";
                "potential_impact" := VStr "high";
                "urgency" := VStr "immediate";
                "recommendation" := VStr "Open an incident" ]} ]}.

(** The library on the values of [review_state]: the id is a UUID in
    its canonical form, and both models validate. *)
Definition resumed_from_dashboard : environment :=
  {| stdin_isatty := false; cli_input := None;
     interrupt := Resumed dashboard_payload;
     now_isoformat := "2025-01-01T00:00:00";
     UUID := fun text =>
       if String.eqb text "0b9d6f0e-5a57-4c58-9d0e-3f6d2c1a7e11"
       then Some (VStr text) else None;
     Investigation_validates := fun _ => true;
     Verdict_values_validate := fun _ => true |}.

Definition dashboard_config : option configurable :=
  Some {| event_emitter := Some persisting_emitter; hil_service := None;
          hil_backend := VStr "dashboard" |}.

Definition chat_config : option configurable :=
  Some {| event_emitter := Some persisting_emitter;
          hil_service := Some chat_after_dashboard;
          hil_backend := VStr "slack" |}.

(** The configuration sends the node to [interrupt()]: no connected HIL
    service, and not the interactive command line. *)
Definition reaches_interrupt
    (env : environment) (run_config : option configurable) : Prop :=
  match run_config with
  | Some c =>
      match hil_service c with
      | Some svc => is_connected svc = false
      | None => True
      end
      /\ (eq_str (py_or (hil_backend c) (VStr "cli")) "cli" && stdin_isatty env
          = false)
  | None => stdin_isatty env = false
  end.

End Hil.

(** ** Alerts and investigations ([models/]) *)

Module Alerts.

Inductive Severity : Type := LOW | MEDIUM | HIGH | CRITICAL.

Definition severity_value (s : Severity) : string :=
  match s with
  | LOW => "low"
  | MEDIUM => "medium"
  | HIGH => "high"
  | CRITICAL => "critical"
  end.

Inductive ObservableType : Type :=
| IP | DOMAIN | URL | HASH_MD5 | HASH_SHA1 | HASH_SHA256 | EMAIL
| FILENAME | FQDN | USER | PROCESS | REGISTRY_KEY | UNKNOWN.

Definition observable_type_value (t : ObservableType) : string :=
  match t with
  | IP => "ip" | DOMAIN => "domain" | URL => "url"
  | HASH_MD5 => "hash_md5" | HASH_SHA1 => "hash_sha1"
  | HASH_SHA256 => "hash_sha256" | EMAIL => "email"
  | FILENAME => "filename" | FQDN => "fqdn" | USER => "user"
  | PROCESS => "process" | REGISTRY_KEY => "registry_key"
  | UNKNOWN => "unknown"
  end.

Record Observable : Type := mkObservable {
  obs_value : string;
  obs_type : ObservableType;
  obs_source : string;
  obs_tags : list string
}.

(** [Observable.__eq__]: value and type. *)
Definition observable_eqb (a b : Observable) : bool :=
  String.eqb (obs_value a) (obs_value b)
  && String.eqb (observable_type_value (obs_type a))
                (observable_type_value (obs_type b)).

Record AlertSource : Type := mkAlertSource {
  agent_id : string;
  agent_name : string;
  agent_ip : option string
}.

Record Alert : Type := mkAlert {
  alert_id : string;
  alert_timestamp : Z;                 (* microseconds *)
  severity : Severity;
  level : Z;
  rule_id : option string;
  rule_description : string;
  source : AlertSource;
  raw_data : gmap string value;
  observables : list Observable;
  processed : bool
}.

(** The in-memory investigation, with the fields the correlator and the
    queue work on; its timestamps and the fields left at their defaults
    are not carried. *)
Record Investigation : Type := mkInv {
  investigation_id : string;
  investigation_title : string;
  alerts : list Alert;
  all_observables : list Observable
}.

(** [max(xs, key=key)] on a non-empty list: the first maximal element. *)
Definition max_by {A} (key : A -> Z) (x : A) (xs : list A) : A :=
  fold_left (fun best y => if key best <? key y then y else best) xs x.

(** The [max_severity] property. *)
Definition max_severity (inv : Investigation) : Severity :=
  match alerts inv with
  | [] => LOW
  | a :: rest =>
      let severity_order s :=
        match s with LOW => 0 | MEDIUM => 1 | HIGH => 2 | CRITICAL => 3 end in
      severity (max_by (fun a => severity_order (severity a)) a rest)
  end.

Definition add_alert (alert : Alert) (inv : Investigation) : Investigation :=
  {| investigation_id := investigation_id inv;
     investigation_title := investigation_title inv;
     alerts := (alerts inv ++ [alert])%list;
     all_observables :=
       fold_left
         (fun acc obs =>
            if existsb (observable_eqb obs) acc then acc
            else (acc ++ [obs])%list)
         (observables alert) (all_observables inv) |}.

Definition string_of_nat (n : nat) : string :=
  DecimalString.NilZero.string_of_uint (Nat.to_uint n).

Definition generate_title (inv : Investigation) : string :=
  match alerts inv with
  | [] => "Empty Investigation"
  | first :: _ =>
      let generic d :=
        String.eqb d "no description available"
        || String.eqb d "no description" || String.eqb d EmptyString in
      let best_description :=
        match filter (fun a => negb (generic (lower (Hil.strip (rule_description a)))))
                     (alerts inv) with
        | a :: _ => Hil.strip (rule_description a)
        | [] =>
            if String.eqb (rule_description first) EmptyString then "Security Alert"
            else rule_description first
        end in
      let base := slice_to 50 best_description in
      if (1 <? Z.of_nat (length (alerts inv)))
      then base ++ " (+" ++ string_of_nat (length (alerts inv) - 1)
                ++ " related alerts)"
      else base
  end.

End Alerts.

Import Alerts.

(** ** Correlator ([polling/correlator.py]) *)

Module AlertCorrelator.

Section Correlate.

(** [self.window_minutes], and the ids that successive [Investigation()]
    constructions draw. *)
Variable window_minutes : Z.
Variable fresh_id : nat -> string.

Definition _extract_rule_groups (alert : Alert) : list string :=
  let desc_lower := lower (rule_description alert) in
  let group_patterns :=
    [("sysmon", "sysmon"); ("authentication", "auth");
     ("brute", "bruteforce"); ("malware", "malware");
     ("rootkit", "rootkit"); ("web", "web_attack");
     ("sql", "sql_injection"); ("file integrity", "fim");
     ("vulnerability", "vuln")] in
  map snd (filter (fun pg => Is_true (contains (fst pg) desc_lower))
                  group_patterns).

Definition _get_correlation_keys (alert : Alert) : list string :=
  let name := agent_name (source alert) in
  let by_agent :=
    if negb (String.eqb name EmptyString) && negb (String.eqb name "unknown")
    then ["agent:" ++ name] else [] in
  let by_observable :=
    flat_map
      (fun obs =>
         match obs_type obs with
         | IP => ["ip:" ++ obs_value obs]
         | HASH_MD5 | HASH_SHA256 | HASH_SHA1 => ["hash:" ++ obs_value obs]
         | DOMAIN => ["domain:" ++ obs_value obs]
         | _ => []
         end)
      (observables alert) in
  let by_group :=
    map (fun g => "rulegroup:" ++ g) (_extract_rule_groups alert) in
  (by_agent ++ by_observable ++ by_group)%list.

(** [groups[key].append(alert)] on the [defaultdict(list)], which keeps
    its keys in insertion order. *)
Fixpoint group_append (key : string) (alert : Alert)
    (groups : list (string * list Alert)) : list (string * list Alert) :=
  match groups with
  | [] => [(key, [alert])]
  | (k, members) :: rest =>
      if String.eqb k key then (k, (members ++ [alert])%list) :: rest
      else (k, members) :: group_append key alert rest
  end.

Definition _filter_by_time_window (group : list Alert) : list Alert :=
  match group with
  | [] => []
  | a :: rest =>
      let most_recent := max_by alert_timestamp a rest in
      let cutoff :=
        alert_timestamp most_recent - window_minutes * 60 * 1000000 in
      filter (fun x => cutoff <= alert_timestamp x) group
  end.

Definition _merge_overlapping_groups
    (groups : list (string * list Alert)) : list (list Alert) :=
  fst
    (fold_left
       (fun '(merged, seen_alert_ids) '(_, group_alerts) =>
          let '(unique_alerts, seen_alert_ids) :=
            fold_left
              (fun '(unique, seen) alert =>
                 if bool_decide (alert_id alert ∈ (seen : gset string))
                 then (unique, seen)
                 else ((unique ++ [alert])%list, {[alert_id alert]} ∪ seen))
              group_alerts ([], seen_alert_ids) in
          match unique_alerts with
          | [] => (merged, seen_alert_ids)
          | _ =>
              match _filter_by_time_window unique_alerts with
              | [] => (merged, seen_alert_ids)
              | kept => ((merged ++ [kept])%list, seen_alert_ids)
              end
          end)
       groups ([], ∅)).

(** The [n]-th [Investigation()] built by [correlate]. *)
Definition _create_investigation (n : nat) (group : list Alert)
  : Investigation :=
  let investigation :=
    fold_left (fun inv alert => add_alert alert inv) group
      {| investigation_id := fresh_id n;
         investigation_title := "Untitled Investigation";
         alerts := []; all_observables := [] |} in
  {| investigation_id := investigation_id investigation;
     investigation_title := generate_title investigation;
     alerts := alerts investigation;
     all_observables := all_observables investigation |}.

(** [list.sort(key=...)]: a stable sort, written as insertion sort; an
    element goes before the elements of equal key that follow it in the
    list. *)
Fixpoint insert_sorted {A} (key : A -> Z) (x : A) (l : list A) : list A :=
  match l with
  | [] => [x]
  | y :: l' => if key x <=? key y then x :: l else y :: insert_sorted key x l'
  end.

Definition sort_by {A} (key : A -> Z) (l : list A) : list A :=
  fold_right (insert_sorted key) [] l.

Definition severity_rank (inv : Investigation) : Z :=
  match max_severity inv with
  | CRITICAL => 0 | HIGH => 1 | MEDIUM => 2 | LOW => 3
  end.

Definition correlate (batch : list Alert) : list Investigation :=
  match batch with
  | [] => []
  | _ =>
      let groups :=
        fold_left
          (fun groups alert =>
             match _get_correlation_keys alert with
             | key :: _ => group_append key alert groups
             | [] => group_append ("standalone_" ++ alert_id alert) alert groups
             end)
          batch [] in
      let merged_groups := _merge_overlapping_groups groups in
      let investigations :=
        imap (fun n group => _create_investigation n group) merged_groups in
      sort_by severity_rank investigations
  end.

End Correlate.

(** Minutes as the microseconds of the timestamps. *)
Definition minutes (n : Z) : Z := n * 60 * 1000000.

(** Two alerts of agent web-01, twenty minutes apart. *)
Definition web01_alert (id : string) (ts : Z) : Alert :=
  {| alert_id := id; alert_timestamp := ts; severity := MEDIUM; level := 5;
     rule_id := Some "5710";
     rule_description := "sshd: attempt to login using a non-existent user";
     source := {| agent_id := "001"; agent_name := "web-01";
                  agent_ip := None |};
     raw_data := ∅; observables := []; processed := false |}.

Definition alert_at_T : Alert := web01_alert "alert-1" (minutes 600).
Definition alert_before_T : Alert := web01_alert "alert-2" (minutes 580).

Definition numbered_id (n : nat) : string := "inv-" ++ string_of_nat n.

End AlertCorrelator.

(** ** Investigation queue ([polling/queue.py])

    The queue is protected by one lock; [add] is modelled as it runs with
    the lock held, on the queue state and the reading of
    [datetime.now()]. *)

Module InvestigationQueue.

(** [TITLE_BLOCK_MINUTES], in microseconds. *)
Definition TITLE_BLOCK_MINUTES : Z := 10.
Definition title_block : Z := TITLE_BLOCK_MINUTES * 60 * 1000000.

Record PrioritizedInvestigation : Type := mkItem {
  priority : Z;
  timestamp : Z;
  investigation : Investigation
}.

Record queue : Type := mkQueue {
  max_size : Z;
  _heap : list PrioritizedInvestigation;
  _seen_ids : gset string;
  _title_block_until : gmap string Z
}.

Definition _severity_to_priority (s : Severity) : Z :=
  match s with
  | CRITICAL => 0
  | HIGH => 1
  | MEDIUM => 2
  | LOW => 3
  end.

(** [heapq._siftdown(heap, 0, pos)]; the dataclass orders items by
    [priority] alone. *)
Fixpoint _siftdown (fuel : nat) (heap : list PrioritizedInvestigation)
    (newitem : PrioritizedInvestigation) (pos : nat)
  : list PrioritizedInvestigation :=
  match fuel with
  | O => <[pos := newitem]> heap
  | S fuel' =>
      if (0 <? pos)%nat then
        let parentpos := ((pos - 1) / 2)%nat in
        match heap !! parentpos with
        | Some parent =>
            if priority newitem <? priority parent
            then _siftdown fuel' (<[pos := parent]> heap) newitem parentpos
            else <[pos := newitem]> heap
        | None => <[pos := newitem]> heap
        end
      else <[pos := newitem]> heap
  end.

Definition heappush (heap : list PrioritizedInvestigation)
    (item : PrioritizedInvestigation) : list PrioritizedInvestigation :=
  _siftdown (length heap) (heap ++ [item])%list item (length heap).

Definition add (q : queue) (inv : Investigation) (now : Z) : bool * queue :=
  if bool_decide (investigation_id inv ∈ _seen_ids q) then (false, q)
  else
    let title := investigation_title inv in
    let blocked :=
      if negb (String.eqb title EmptyString) then
        match _title_block_until q !! title with
        | Some block_until => now <? block_until
        | None => false
        end
      else false in
    if blocked then (false, q)
    else if max_size q <=? Z.of_nat (length (_heap q)) then (false, q)
    else
      let priority := _severity_to_priority (max_severity inv) in
      let item := {| priority := priority; timestamp := now;
                     investigation := inv |} in
      (true,
       {| max_size := max_size q;
          _heap := heappush (_heap q) item;
          _seen_ids := {[investigation_id inv]} ∪ _seen_ids q;
          _title_block_until :=
            if negb (String.eqb title EmptyString)
            then <[title := now + title_block]> (_title_block_until q)
            else _title_block_until q |}).

(** The three reasons for which [add] turns an investigation down. *)
Definition rejected (q : queue) (inv : Investigation) (now : Z) : Prop :=
  investigation_id inv ∈ _seen_ids q
  \/ (investigation_title inv <> EmptyString
      /\ exists block_until,
           _title_block_until q !! investigation_title inv = Some block_until
           /\ now < block_until)
  \/ max_size q <= Z.of_nat (length (_heap q)).

(** A queue of capacity one that holds one investigation. *)
Definition sample_investigation (id title : string) : Investigation :=
  {| investigation_id := id; investigation_title := title;
     alerts := []; all_observables := [] |}.

Definition full_queue : queue :=
  {| max_size := 1;
     _heap := [ {| priority := 3; timestamp := 0;
                   investigation := sample_investigation "inv-1" "Port scan" |} ];
     _seen_ids := {[ "inv-1" ]};
     _title_block_until := {[ "Port scan" := title_block ]} |}.

End InvestigationQueue.

(** ** LLM answer parsing ([supervisor/node.py], [supervisor/verdict.py])

    [re.search] with the three patterns of the parsers, [json.loads],
    [str.upper] and [str.lower] belong to the Python library and are
    parameters. *)

Module Parsing.

Record log_record : Type := mkLog {
  log_level : string;
  log_event : string;
  log_fields : list (string * value)
}.

(** [_sanitize_json_string]: the scan over the characters, with its two
    flags. *)
Fixpoint sanitize_scan (in_string escape_next : bool) (s : string) : string :=
  match s with
  | EmptyString => EmptyString
  | String char rest =>
      if escape_next then String char (sanitize_scan in_string false rest)
      else if Ascii.eqb char "092"%char
      then String char (sanitize_scan in_string true rest)
      else if Ascii.eqb char "034"%char
      then String char (sanitize_scan (negb in_string) false rest)
      else if in_string && Ascii.eqb char "010"%char
      then String "092"%char (String "n"%char (sanitize_scan in_string false rest))
      else if in_string && Ascii.eqb char "013"%char
      then String "092"%char (String "r"%char (sanitize_scan in_string false rest))
      else if in_string && Ascii.eqb char "009"%char
      then String "092"%char (String "t"%char (sanitize_scan in_string false rest))
      else String char (sanitize_scan in_string false rest)
  end.

Definition _sanitize_json_string (json_str : string) : string :=
  sanitize_scan false false json_str.

Section Parsers.

(** [re.search(r"```json\s*(.*?)\s*```", text, re.DOTALL)], group 1. *)
Variable search_json_block : string -> option string.
(** [re.search(r"\{(?:[^{}]|\{[^{}]*\})*\}", text, re.DOTALL)], group 0. *)
Variable search_json_object : string -> option string.
(** [re.search(r"\{.*\}", text, re.DOTALL)], group 0. *)
Variable search_braces : string -> option string.
(** [json.loads]: the decoded value, or the [JSONDecodeError] message. *)
Variable json_loads : string -> string + value.
(** [str.upper] and [str.lower]: the case mapping of Unicode. *)
Variable str_upper : string -> string.
Variable str_lower : string -> string.

Definition one_half : value := VFloat 4602678819172646912.

Definition _parse_decision_response (response_text : string)
  : value * list log_record :=
  let attempt1 :=
    match search_json_block response_text with
    | Some group1 =>
        match json_loads (_sanitize_json_string group1) with
        | inr result =>
            inr (result, [mkLog "debug" "parsed_json_from_markdown_block" []])
        | inl e =>
            inl [mkLog "warning" "json_decode_failed_markdown"
                   [("error", VStr e);
                    ("content", VStr (slice_to 500 group1))]]
        end
    | None => inl []
    end in
  match attempt1 with
  | inr done => done
  | inl log1 =>
  let attempt2 :=
    match search_json_object response_text with
    | Some group0 =>
        match json_loads (_sanitize_json_string group0) with
        | inr result => inr (result, [mkLog "debug" "parsed_json_from_raw" []])
        | inl e =>
            inl [mkLog "warning" "json_decode_failed_raw"
                   [("error", VStr e);
                    ("content", VStr (slice_to 500 group0))]]
        end
    | None => inl []
    end in
  match attempt2 with
  | inr (result, log2) => (result, (log1 ++ log2)%list)
  | inl log2 =>
  match json_loads (_sanitize_json_string response_text) with
  | inr result =>
      (result,
       (log1 ++ log2 ++ [mkLog "debug" "parsed_json_from_full_response" []])%list)
  | inl e =>
      let log3 := [mkLog "warning" "json_decode_failed_full" [("error", VStr e)];
                   mkLog "error" "llm_response_parse_failed"
                     [("response_text",
                       VStr (slice_to 1000 response_text));
                      ("response_length", VInt (len response_text))]] in
      let result : gmap string value :=
        {[ "next_action" := VStr "ENRICH";
           "action_reasoning" := VStr "Failed to parse LLM response";
           "tp_confidence" := one_half;
           "confidence_reasoning" := VStr "Unable to determine";
           "specific_instructions" := VStr EmptyString ]} in
      let found :=
        filter (fun action =>
                  Is_true (contains action (str_upper response_text)))
               ["VERDICT"; "CLOSE"; "INVESTIGATE"; "CONTEXTUALIZE"; "ENRICH"] in
      let result :=
        match found with
        | action :: _ => <["next_action" := VStr action]> result
        | [] => result
        end in
      (VDict result, (log1 ++ log2 ++ log3)%list)
  end
  end
  end.

Definition _parse_verdict_response (response_text : string) : value :=
  let attempt1 :=
    match search_json_block response_text with
    | Some group1 =>
        match json_loads group1 with
        | inr result => Some result
        | inl _ => None
        end
    | None => None
    end in
  match attempt1 with
  | Some result => result
  | None =>
  let attempt2 :=
    match search_braces response_text with
    | Some group0 =>
        match json_loads group0 with
        | inr result => Some result
        | inl _ => None
        end
    | None => None
    end in
  match attempt2 with
  | Some result => result
  | None =>
  match json_loads response_text with
  | inr result => result
  | inl _ =>
      let result : gmap string value :=
        {[ "decision" := VStr "needs_more_info";
           "confidence" := one_half;
           "threat_assessment" := VStr "Unable to parse verdict response";
           "evidence_strength" := VStr "weak";
           "potential_impact" := VStr "medium";
           "urgency" := VStr "routine";
           "key_evidence" := VList [];
           "gaps_in_evidence" := VList [VStr "Failed to parse LLM response"];
           "assumptions_made" := VList [];
           "alternative_explanations" := VList [];
           "recommendation" :=
             VStr "Manual review required - verdict parsing failed" ]} in
      let response_lower := str_lower response_text in
      let result :=
        if contains "escalate" response_lower
        then <["decision" := VStr "escalate"]> result
        else if contains "close" response_lower
                && contains "false positive" response_lower
        then <["decision" := VStr "close"]> result
        else result in
      VDict result
  end
  end
  end.

(** All three extraction attempts of a parser fail on [text]. *)
Definition decision_attempts_fail (text : string) : Prop :=
  (forall g, search_json_block text = Some g ->
             exists e, json_loads (_sanitize_json_string g) = inl e)
  /\ (forall g, search_json_object text = Some g ->
                exists e, json_loads (_sanitize_json_string g) = inl e)
  /\ exists e, json_loads (_sanitize_json_string text) = inl e.

Definition verdict_attempts_fail (text : string) : Prop :=
  (forall g, search_json_block text = Some g ->
             exists e, json_loads g = inl e)
  /\ (forall g, search_braces text = Some g -> exists e, json_loads g = inl e)
  /\ exists e, json_loads text = inl e.

End Parsers.

(** Library behaviour on an answer without fence, brace or JSON value;
    its case mapping on a text within ASCII is [upper] and [lower]. *)
Definition no_match : string -> option string := fun _ => None.
Definition no_json : string -> string + value :=
  fun _ => inl "Expecting value: line 1 column 1 (char 0)".

Definition prose_answer : string :=
  "The evidence is sufficient, proceed to verdict.".

End Parsing.

(** * Properties *)

(** ** Routing after the verdict *)

Section RouteFromVerdict.

Import Builder.

(** C7. On a state whose verdict entry is a dictionary with the decision
    needs_more_info, [route_from_verdict] returns supervisor if the
    state's retry count is missing or below 2 and human_review if it is 2
    or more; with the decision escalate it returns human_review and with
    close the close node, whatever the count. *)
Theorem route_from_verdict_bounded_retry
    (st verdict : gmap string value) (decision : string) :
  st !! "verdict" = Some (VDict verdict) ->
  verdict !! "decision" = Some (VStr decision) ->
  (decision = "escalate" -> route_from_verdict st = inr "human_review")
  /\ (decision = "close" ->
      route_from_verdict st = inr "close_investigation")
  /\ (decision = "needs_more_info" ->
      (st !! "verdict_retry_count" = None ->
       route_from_verdict st = inr "supervisor")
      /\ forall n, st !! "verdict_retry_count" = Some (VInt n) ->
           (n < 2 -> route_from_verdict st = inr "supervisor")
           /\ (2 <= n -> route_from_verdict st = inr "human_review")).
Proof.
  intros Hverdict Hdecision. unfold route_from_verdict, get_or.
  rewrite Hverdict. cbn [default from_option id value_get]. unfold get_or.
  rewrite Hdecision. cbn [default from_option id].
  split; [intros ->; reflexivity|].
  split; [intros ->; reflexivity|].
  intros ->. cbn. split.
  - intros ->. reflexivity.
  - intros n ->. cbn.
    split; intros Hlt; destruct (2 <=? n) eqn:E; (reflexivity || lia).
Qed.

Lemma route_from_verdict_bounded_retry_witness :
  route_from_verdict third_verdict_state = inr "human_review".
Proof.
  refine (proj2 (proj2 (proj2 (proj2
            (route_from_verdict_bounded_retry third_verdict_state
               {[ "decision" := VStr "needs_more_info" ]}
               "needs_more_info" _ _)) eq_refl) 2 _) _).
  - vm_compute. reflexivity.
  - vm_compute. reflexivity.
  - vm_compute. reflexivity.
  - lia.
Defined.

End RouteFromVerdict.

(** ** Queue: a rejected [add] changes nothing *)

Section QueueAdd.

Import InvestigationQueue.

Lemma add_accepts_or_keeps (q : queue) (inv : Investigation) (now : Z) :
  fst (add q inv now) = false -> add q inv now = (false, q) /\ rejected q inv now.
Proof.
  unfold add, rejected.
  destruct (bool_decide (investigation_id inv ∈ _seen_ids q)) eqn:Hseen.
  - intros _. split; [reflexivity|]. left. by apply bool_decide_eq_true in Hseen.
  - destruct (negb (String.eqb (investigation_title inv) EmptyString)) eqn:Htitle.
    + destruct (_title_block_until q !! investigation_title inv)
        as [block_until|] eqn:Hblock.
      * destruct (now <? block_until) eqn:Hnow.
        -- intros _. split; [reflexivity|]. right; left. split.
           ++ intros Heq. rewrite Heq in Htitle. discriminate.
           ++ exists block_until. split; [reflexivity | lia].
        -- destruct (max_size q <=? Z.of_nat (length (_heap q))) eqn:Hfull.
           ++ intros _. split; [reflexivity|]. right; right. lia.
           ++ cbn. discriminate.
      * destruct (max_size q <=? Z.of_nat (length (_heap q))) eqn:Hfull.
        -- intros _. split; [reflexivity|]. right; right. lia.
        -- cbn. discriminate.
    + destruct (max_size q <=? Z.of_nat (length (_heap q))) eqn:Hfull.
      * intros _. split; [reflexivity|]. right; right. lia.
      * cbn. discriminate.
Qed.

(** C10. A call to [add] that is rejected (the id is in [_seen_ids], or the
    non-empty title is blocked at the time of the call, or the heap holds
    [max_size] items) returns [False] and leaves heap, seen ids and title
    blocks as they were. *)
Theorem add_rejected_unchanged (q : queue) (inv : Investigation) (now : Z) :
  rejected q inv now -> add q inv now = (false, q).
Proof.
  intros Hrej. apply add_accepts_or_keeps.
  unfold add. destruct Hrej as [Hseen | [[Htitle (b & Hb & Hnow)] | Hfull]].
  - rewrite bool_decide_eq_true_2 by done. reflexivity.
  - destruct (bool_decide _); [reflexivity|].
    assert (String.eqb (investigation_title inv) EmptyString = false) as ->.
    { apply String.eqb_neq. exact Htitle. }
    cbn. rewrite Hb.
    assert ((now <? b) = true) as -> by lia. reflexivity.
  - destruct (bool_decide _); [reflexivity|].
    assert ((max_size q <=? Z.of_nat (length (_heap q))) = true) as -> by lia.
    destruct (if negb _ then _ else _); reflexivity.
Qed.

Lemma add_rejected_unchanged_witness :
  add full_queue (sample_investigation "inv-2" "Brute force") 0
  = (false, full_queue).
Proof.
  apply add_rejected_unchanged. right; right. vm_compute. discriminate.
Defined.

End QueueAdd.

(** ** Projector: final status of a closed investigation *)

Section ClosedStatus.

Import Projector.

(** C6, as stated, fails: with verdict decision close and the resolution
    "Investigation closed by AI verdict", which contains the phrase
    without starting with it, the handler sets auto_closed where the
    stated derivation gives closed. *)
Lemma closed_status_phrase_not_at_start :
  status (snd (_project_investigation_closed
                 phrase_inside_event (new_investigation 1 0 0)))
  = "auto_closed"
  /\ payload_text phrase_inside_event "resolution"
     = inr "investigation closed by ai verdict"
  /\ payload_text phrase_inside_event "verdict_decision" = inr "close"
  /\ truthy (thehive_case_id
               (snd (_project_investigation_closed
                       phrase_inside_event (new_investigation 1 0 0))))
     = false
  /\ final_status_by_spec false "investigation closed by ai verdict" "close"
     = "closed".
Proof. vm_compute. repeat split; reflexivity. Qed.

Lemma triage_keeps_status ts i :
  status (set_triage_if_unset ts i) = status i.
Proof. unfold set_triage_if_unset. destruct (time_to_triage_seconds i); reflexivity. Qed.

Lemma triage_keeps_case_id ts i :
  thehive_case_id (set_triage_if_unset ts i) = thehive_case_id i.
Proof. unfold set_triage_if_unset. destruct (time_to_triage_seconds i); reflexivity. Qed.

(** C6, amended. On INVESTIGATION_CLOSED the handler sets the status to
    escalated when the row has a case id (its own or the payload's), else
    to rejected when the lower-cased resolution contains "rejected", else
    to auto_closed when the lower-cased verdict decision is close and the
    lower-cased resolution contains "closed by ai verdict", else to
    closed. *)
Theorem closed_status_derivation
    (e : Event) (i : InvestigationReadModel)
    (resolution verdict_decision : string) :
  payload_text e "resolution" = inr resolution ->
  payload_text e "verdict_decision" = inr verdict_decision ->
  let after := _project_investigation_closed e i in
  fst after = None
  /\ thehive_case_id (snd after)
     = (if truthy (get (data e) "thehive_case_id")
        then get (data e) "thehive_case_id" else thehive_case_id i)
  /\ status (snd after)
     = final_status (truthy (thehive_case_id (snd after)))
                    resolution verdict_decision.
Proof.
  unfold payload_text, _project_investigation_closed, final_status.
  intros -> ->. cbn zeta.
  generalize (get (data e) "thehive_case_id"); intros case_id.
  cbn [fst snd]. rewrite !triage_keeps_case_id, !triage_keeps_status.
  destruct (truthy (VStr verdict_decision));
    destruct (truthy case_id) eqn:Hcase; cbn; rewrite ?Hcase;
    destruct (truthy (thehive_case_id i)) eqn:Hrow;
    destruct (contains "rejected" resolution);
    destruct (String.eqb verdict_decision "close"
              && contains "closed by ai verdict" resolution);
    cbn; rewrite ?Hcase, ?Hrow; repeat split; reflexivity.
Qed.

Lemma closed_status_derivation_witness :
  status (snd (_project_investigation_closed
                 (closed_event "Closed by AI verdict - likely false positive"
                               "close")
                 (new_investigation 1 0 0)))
  = "auto_closed".
Proof.
  refine (eq_trans
    (proj2 (proj2 (closed_status_derivation
       (closed_event "Closed by AI verdict - likely false positive" "close")
       (new_investigation 1 0 0)
       "closed by ai verdict - likely false positive" "close" _ _))) _).
  - vm_compute. reflexivity.
  - vm_compute. reflexivity.
  - vm_compute. reflexivity.
Defined.

End ClosedStatus.

(** ** LLM answers that do not decode *)

Section ParseFailure.

Import Parsing.

(** The scan for the action words, one word at a time. *)
Lemma filter_contains_cons (upper_text action : string) (l : list string) :
  filter (fun action => Is_true (contains action upper_text)) (action :: l)
  = if contains action upper_text
    then action :: filter (fun action => Is_true (contains action upper_text)) l
    else filter (fun action => Is_true (contains action upper_text)) l.
Proof.
  destruct (contains action upper_text) eqn:E.
  - apply filter_cons_True. rewrite E. exact I.
  - apply filter_cons_False. rewrite E. exact id.
Qed.

(** On the answer "The evidence is sufficient, proceed to verdict.", for
    any library behaviour under which the three attempts fail and the
    answer in upper case is what it is for a text within ASCII, the
    supervisor parser answers VERDICT. *)
Lemma prose_answer_gives_verdict
    (search_json_block search_json_object : string -> option string)
    (json_loads : string -> string + value)
    (str_upper : string -> string) :
  decision_attempts_fail search_json_block search_json_object json_loads
    prose_answer ->
  str_upper prose_answer = "THE EVIDENCE IS SUFFICIENT, PROCEED TO VERDICT." ->
  exists d logs,
    _parse_decision_response search_json_block search_json_object json_loads
      str_upper prose_answer = (VDict d, logs)
    /\ d !! "next_action" = Some (VStr "VERDICT").
Proof.
  intros (H1 & H2 & e3 & H3) Hupper. unfold _parse_decision_response.
  rewrite Hupper.
  destruct (search_json_block prose_answer) as [g1|] eqn:E1.
  - destruct (H1 g1 eq_refl) as [e1 ->].
    destruct (search_json_object prose_answer) as [g2|] eqn:E2.
    + destruct (H2 g2 eq_refl) as [e2 ->]. rewrite H3.
      eexists _, _. split; [reflexivity|]. vm_compute. reflexivity.
    + rewrite H3. eexists _, _. split; [reflexivity|]. vm_compute. reflexivity.
  - destruct (search_json_object prose_answer) as [g2|] eqn:E2.
    + destruct (H2 g2 eq_refl) as [e2 ->]. rewrite H3.
      eexists _, _. split; [reflexivity|]. vm_compute. reflexivity.
    + rewrite H3. eexists _, _. split; [reflexivity|]. vm_compute. reflexivity.
Qed.

(** C9, as stated, fails: a total failure of the three attempts does not
    always give next_action = ENRICH. *)
Lemma parse_failure_not_always_enrich :
  ~ (forall (search_json_block search_json_object : string -> option string)
            (json_loads : string -> string + value)
            (str_upper : string -> string) (text : string),
       decision_attempts_fail search_json_block search_json_object json_loads
         text ->
       exists d logs,
         _parse_decision_response search_json_block search_json_object
           json_loads str_upper text = (VDict d, logs)
         /\ d !! "next_action" = Some (VStr "ENRICH")).
Proof.
  intros claim.
  assert (decision_attempts_fail no_match no_match no_json prose_answer)
    as Hfail.
  { repeat split; try discriminate. eexists. reflexivity. }
  destruct (claim _ _ _ upper _ Hfail) as (d & logs & Hd & Hnext).
  destruct (prose_answer_gives_verdict _ _ _ upper Hfail eq_refl)
    as (d' & logs' & Hd' & Hnext').
  rewrite Hd in Hd'. injection Hd' as <- <-.
  rewrite Hnext in Hnext'. discriminate.
Qed.

(** C9, amended. When the three attempts fail, the supervisor parser
    returns its default record, whose five entries are all fixed but
    next_action: that is the first of VERDICT, CLOSE, INVESTIGATE,
    CONTEXTUALIZE, ENRICH that occurs in the upper-cased answer, ENRICH
    when none does; and it logs, last, the first 1000 characters of the
    answer and its length.  The verdict parser returns its default record,
    whose eleven entries are all fixed but decision: escalate when the
    lower-cased answer contains "escalate", close when it contains both
    "close" and "false positive", and needs_more_info otherwise.  This
    holds whatever the library's regular expressions, JSON decoder and
    case mapping do. *)
Theorem parse_failure_defaults
    (search_json_block search_json_object search_braces
       : string -> option string)
    (json_loads : string -> string + value)
    (str_upper str_lower : string -> string) (text : string) :
  (decision_attempts_fail search_json_block search_json_object json_loads
     text ->
   exists action logs,
     _parse_decision_response search_json_block search_json_object json_loads
       str_upper text
     = (VDict {[ "next_action" := VStr action;
                 "action_reasoning" := VStr "Failed to parse LLM response";
                 "tp_confidence" := VFloat 4602678819172646912;
                 "confidence_reasoning" := VStr "Unable to determine";
                 "specific_instructions" := VStr EmptyString ]},
        logs)
     /\ (contains "VERDICT" (str_upper text) = true -> action = "VERDICT")
     /\ (contains "VERDICT" (str_upper text) = false ->
         contains "CLOSE" (str_upper text) = true -> action = "CLOSE")
     /\ (contains "VERDICT" (str_upper text) = false ->
         contains "CLOSE" (str_upper text) = false ->
         contains "INVESTIGATE" (str_upper text) = true ->
         action = "INVESTIGATE")
     /\ (contains "VERDICT" (str_upper text) = false ->
         contains "CLOSE" (str_upper text) = false ->
         contains "INVESTIGATE" (str_upper text) = false ->
         contains "CONTEXTUALIZE" (str_upper text) = true ->
         action = "CONTEXTUALIZE")
     /\ (contains "VERDICT" (str_upper text) = false ->
         contains "CLOSE" (str_upper text) = false ->
         contains "INVESTIGATE" (str_upper text) = false ->
         contains "CONTEXTUALIZE" (str_upper text) = false ->
         action = "ENRICH")
     /\ last logs
        = Some (mkLog "error" "llm_response_parse_failed"
                  [("response_text", VStr (slice_to 1000 text));
                   ("response_length", VInt (len text))]))
  /\ (verdict_attempts_fail search_json_block search_braces json_loads text ->
      exists decision,
        _parse_verdict_response search_json_block search_braces json_loads
          str_lower text
        = VDict {[ "decision" := VStr decision;
                   "confidence" := VFloat 4602678819172646912;
                   "threat_assessment" :=
                     VStr "Unable to parse verdict response";
                   "evidence_strength" := VStr "weak";
                   "potential_impact" := VStr "medium";
                   "urgency" := VStr "routine";
                   "key_evidence" := VList [];
                   "gaps_in_evidence" :=
                     VList [VStr "Failed to parse LLM response"];
                   "assumptions_made" := VList [];
                   "alternative_explanations" := VList [];
                   "recommendation" :=
                     VStr "Manual review required - verdict parsing failed" ]}
        /\ (contains "escalate" (str_lower text) = true ->
            decision = "escalate")
        /\ (contains "escalate" (str_lower text) = false ->
            contains "close" (str_lower text) = true ->
            contains "false positive" (str_lower text) = true ->
            decision = "close")
        /\ (contains "escalate" (str_lower text) = false ->
            contains "close" (str_lower text) = false
            \/ contains "false positive" (str_lower text) = false ->
            decision = "needs_more_info")).
Proof.
  split.
  - intros (H1 & H2 & e3 & H3).
    assert (forall log1 log2 : list log_record,
      exists action logs,
        (let result : gmap string value :=
           {[ "next_action" := VStr "ENRICH";
              "action_reasoning" := VStr "Failed to parse LLM response";
              "tp_confidence" := one_half;
              "confidence_reasoning" := VStr "Unable to determine";
              "specific_instructions" := VStr EmptyString ]} in
         let found :=
           filter (fun action => Is_true (contains action (str_upper text)))
             ["VERDICT"; "CLOSE"; "INVESTIGATE"; "CONTEXTUALIZE"; "ENRICH"] in
         (VDict match found with
                | action :: _ => <["next_action" := VStr action]> result
                | [] => result
                end,
          (log1 ++ log2 ++
           [mkLog "warning" "json_decode_failed_full" [("error", VStr e3)];
            mkLog "error" "llm_response_parse_failed"
              [("response_text", VStr (slice_to 1000 text));
               ("response_length", VInt (len text))]])%list))
        = (VDict {[ "next_action" := VStr action;
                    "action_reasoning" := VStr "Failed to parse LLM response";
                    "tp_confidence" := VFloat 4602678819172646912;
                    "confidence_reasoning" := VStr "Unable to determine";
                    "specific_instructions" := VStr EmptyString ]},
           logs)
        /\ (contains "VERDICT" (str_upper text) = true -> action = "VERDICT")
        /\ (contains "VERDICT" (str_upper text) = false ->
            contains "CLOSE" (str_upper text) = true -> action = "CLOSE")
        /\ (contains "VERDICT" (str_upper text) = false ->
            contains "CLOSE" (str_upper text) = false ->
            contains "INVESTIGATE" (str_upper text) = true ->
            action = "INVESTIGATE")
        /\ (contains "VERDICT" (str_upper text) = false ->
            contains "CLOSE" (str_upper text) = false ->
            contains "INVESTIGATE" (str_upper text) = false ->
            contains "CONTEXTUALIZE" (str_upper text) = true ->
            action = "CONTEXTUALIZE")
        /\ (contains "VERDICT" (str_upper text) = false ->
            contains "CLOSE" (str_upper text) = false ->
            contains "INVESTIGATE" (str_upper text) = false ->
            contains "CONTEXTUALIZE" (str_upper text) = false ->
            action = "ENRICH")
        /\ last logs
           = Some (mkLog "error" "llm_response_parse_failed"
                     [("response_text", VStr (slice_to 1000 text));
                      ("response_length", VInt (len text))])) as Hdefault.
    { intros log1 log2. cbn zeta. rewrite !filter_contains_cons, filter_nil.
      assert (forall logs' : log_record,
                last (log1 ++ log2 ++
                      [mkLog "warning" "json_decode_failed_full"
                         [("error", VStr e3)]; logs'])%list = Some logs')
        as Hlast.
      { intros logs'.
        change [mkLog "warning" "json_decode_failed_full" [("error", VStr e3)];
                logs']
          with ([mkLog "warning" "json_decode_failed_full" [("error", VStr e3)]]
                ++ [logs'])%list.
        rewrite !app_assoc. apply last_snoc. }
      destruct (contains "VERDICT" (str_upper text));
        [|destruct (contains "CLOSE" (str_upper text));
          [|destruct (contains "INVESTIGATE" (str_upper text));
            [|destruct (contains "CONTEXTUALIZE" (str_upper text));
              [|destruct (contains "ENRICH" (str_upper text))]]]];
        eexists _, _;
        (split; [rewrite ?insert_insert_eq; reflexivity|]);
        repeat split; try (intros; congruence); apply Hlast. }
    unfold _parse_decision_response.
    destruct (search_json_block text) as [g1|] eqn:E1;
      [destruct (H1 g1 eq_refl) as [e1 ->]|];
      (destruct (search_json_object text) as [g2|] eqn:E2;
       [destruct (H2 g2 eq_refl) as [e2 ->]|]);
      rewrite H3; apply Hdefault.
  - intros (H1 & H2 & e3 & H3). unfold _parse_verdict_response.
    assert (exists decision,
      VDict
        (let result : gmap string value :=
           {[ "decision" := VStr "needs_more_info";
              "confidence" := one_half;
              "threat_assessment" := VStr "Unable to parse verdict response";
              "evidence_strength" := VStr "weak";
              "potential_impact" := VStr "medium";
              "urgency" := VStr "routine";
              "key_evidence" := VList [];
              "gaps_in_evidence" := VList [VStr "Failed to parse LLM response"];
              "assumptions_made" := VList [];
              "alternative_explanations" := VList [];
              "recommendation" :=
                VStr "Manual review required - verdict parsing failed" ]} in
         if contains "escalate" (str_lower text)
         then <["decision" := VStr "escalate"]> result
         else if contains "close" (str_lower text)
                 && contains "false positive" (str_lower text)
         then <["decision" := VStr "close"]> result
         else result)
      = VDict {[ "decision" := VStr decision;
                 "confidence" := VFloat 4602678819172646912;
                 "threat_assessment" :=
                   VStr "Unable to parse verdict response";
                 "evidence_strength" := VStr "weak";
                 "potential_impact" := VStr "medium";
                 "urgency" := VStr "routine";
                 "key_evidence" := VList [];
                 "gaps_in_evidence" :=
                   VList [VStr "Failed to parse LLM response"];
                 "assumptions_made" := VList [];
                 "alternative_explanations" := VList [];
                 "recommendation" :=
                   VStr "Manual review required - verdict parsing failed" ]}
      /\ (contains "escalate" (str_lower text) = true ->
          decision = "escalate")
      /\ (contains "escalate" (str_lower text) = false ->
          contains "close" (str_lower text) = true ->
          contains "false positive" (str_lower text) = true ->
          decision = "close")
      /\ (contains "escalate" (str_lower text) = false ->
          contains "close" (str_lower text) = false
          \/ contains "false positive" (str_lower text) = false ->
          decision = "needs_more_info")) as Hdefault.
    { cbn zeta.
      destruct (contains "escalate" (str_lower text));
        [|destruct (contains "close" (str_lower text));
          destruct (contains "false positive" (str_lower text))];
        cbn [andb]; eexists;
        (split; [rewrite ?insert_insert_eq; reflexivity|]);
        repeat split; try (intros; congruence);
        intros _ [?|?]; congruence. }
    destruct (search_json_block text) as [g1|] eqn:E1;
      [destruct (H1 g1 eq_refl) as [e1 ->]|];
      (destruct (search_braces text) as [g2|] eqn:E2;
       [destruct (H2 g2 eq_refl) as [e2 ->]|]);
      rewrite H3; apply Hdefault.
Qed.

Lemma parse_failure_defaults_witness :
  exists action logs,
    _parse_decision_response no_match no_match no_json upper prose_answer
    = (VDict {[ "next_action" := VStr action;
                "action_reasoning" := VStr "Failed to parse LLM response";
                "tp_confidence" := VFloat 4602678819172646912;
                "confidence_reasoning" := VStr "Unable to determine";
                "specific_instructions" := VStr EmptyString ]},
       logs)
    /\ (contains "VERDICT" (upper prose_answer) = true -> action = "VERDICT")
    /\ (contains "VERDICT" (upper prose_answer) = false ->
        contains "CLOSE" (upper prose_answer) = true -> action = "CLOSE")
    /\ (contains "VERDICT" (upper prose_answer) = false ->
        contains "CLOSE" (upper prose_answer) = false ->
        contains "INVESTIGATE" (upper prose_answer) = true ->
        action = "INVESTIGATE")
    /\ (contains "VERDICT" (upper prose_answer) = false ->
        contains "CLOSE" (upper prose_answer) = false ->
        contains "INVESTIGATE" (upper prose_answer) = false ->
        contains "CONTEXTUALIZE" (upper prose_answer) = true ->
        action = "CONTEXTUALIZE")
    /\ (contains "VERDICT" (upper prose_answer) = false ->
        contains "CLOSE" (upper prose_answer) = false ->
        contains "INVESTIGATE" (upper prose_answer) = false ->
        contains "CONTEXTUALIZE" (upper prose_answer) = false ->
        action = "ENRICH")
    /\ last logs
       = Some (mkLog "error" "llm_response_parse_failed"
                 [("response_text", VStr (slice_to 1000 prose_answer));
                  ("response_length", VInt (len prose_answer))]).
Proof.
  apply (proj1 (parse_failure_defaults no_match no_match no_match no_json
                  upper lower prose_answer)).
  split; [discriminate | split; [discriminate|]].
  eexists. reflexivity.
Defined.

End ParseFailure.

(** ** Correlation window *)

Section CorrelationWindow.

Import AlertCorrelator.

(** C5, as stated, fails: for the two web-01 alerts at T and T - 20 min
    and a window of 15 minutes, [correlate] returns one investigation,
    not two; it holds the alert at T alone. *)
Lemma correlate_window_cutoff_single :
  length (correlate 15 numbered_id [alert_at_T; alert_before_T]) = 1%nat
  /\ map alerts (correlate 15 numbered_id [alert_at_T; alert_before_T])
     = [[alert_at_T]]
  /\ length (correlate 15 numbered_id [alert_at_T; alert_before_T]) <> 2%nat.
Proof. vm_compute. repeat split; try reflexivity. discriminate. Qed.

Lemma agent_key_first (a : Alert) (name : string) :
  agent_name (source a) = name ->
  name <> EmptyString -> name <> "unknown" ->
  exists more, _get_correlation_keys a = ("agent:" ++ name) :: more.
Proof.
  intros Hname Hne Hunk. unfold _get_correlation_keys. rewrite Hname.
  apply String.eqb_neq in Hne, Hunk. rewrite Hne, Hunk. cbn.
  eexists. reflexivity.
Qed.

(** C5, amended. For two alerts with different ids that share the agent
    name web-01, the second twenty minutes older than the first, and a
    15-minute window, [correlate] returns exactly one investigation; it
    holds the newer alert alone, and the older alert is in no returned
    investigation. *)
Theorem correlate_window_cutoff
    (fresh_id : nat -> string) (newer older : Alert) :
  agent_name (source newer) = "web-01" ->
  agent_name (source older) = "web-01" ->
  alert_id newer <> alert_id older ->
  alert_timestamp older = alert_timestamp newer - minutes 20 ->
  (exists inv, correlate 15 fresh_id [newer; older] = [inv]
               /\ alerts inv = [newer])
  /\ (exists inv, correlate 15 fresh_id [older; newer] = [inv]
                  /\ alerts inv = [newer]).
Proof.
  intros Hn Ho Hid Hts.
  destruct (agent_key_first newer "web-01" Hn) as [kn Hkn]; [done..|].
  destruct (agent_key_first older "web-01" Ho) as [ko Hko]; [done..|].
  unfold minutes in Hts.
  split.
  - unfold correlate. cbn [fold_left]. rewrite Hkn, Hko.
    cbn [group_append String.eqb]. rewrite String.eqb_refl.
    unfold _merge_overlapping_groups. cbn [fold_left app].
    rewrite bool_decide_eq_false_2 by apply not_elem_of_empty.
    rewrite bool_decide_eq_false_2
      by (rewrite elem_of_union, elem_of_singleton, elem_of_empty;
          intros [Heq | []]; congruence).
    cbn [app]. unfold _filter_by_time_window, max_by. cbn [fold_left].
    replace (alert_timestamp newer <? alert_timestamp older) with false by lia.
    rewrite filter_cons_True by lia.
    rewrite filter_cons_False by lia.
    rewrite filter_nil. cbn.
    eexists. split; reflexivity.
  - unfold correlate. cbn [fold_left]. rewrite Hkn, Hko.
    cbn [group_append String.eqb]. rewrite String.eqb_refl.
    unfold _merge_overlapping_groups. cbn [fold_left app].
    rewrite bool_decide_eq_false_2 by apply not_elem_of_empty.
    rewrite bool_decide_eq_false_2
      by (rewrite elem_of_union, elem_of_singleton, elem_of_empty;
          intros [Heq | []]; congruence).
    cbn [app]. unfold _filter_by_time_window, max_by. cbn [fold_left].
    replace (alert_timestamp older <? alert_timestamp newer) with true by lia.
    rewrite filter_cons_False by lia.
    rewrite filter_cons_True by lia.
    rewrite filter_nil. cbn.
    eexists. split; reflexivity.
Qed.

Lemma correlate_window_cutoff_witness :
  exists inv, correlate 15 numbered_id [alert_at_T; alert_before_T] = [inv]
              /\ alerts inv = [alert_at_T].
Proof.
  refine (proj1 (correlate_window_cutoff numbered_id alert_at_T alert_before_T
                   eq_refl eq_refl _ _)).
  - vm_compute. discriminate.
  - vm_compute. reflexivity.
Defined.

End CorrelationWindow.

(** ** Human review: who emits HUMAN_DECISION_RECEIVED *)

Section HumanReview.

Import Hil.

(** The first emission of the node is no HUMAN_DECISION_RECEIVED. *)
Lemma review_requested_not_decision
    (emitter : option EventEmitter) (investigation_id : option value)
    (verdict_data : value) (st : gmap string value) :
  filter (fun m => Is_true (is_decision_received m))
         (snd (emit_review_requested emitter investigation_id verdict_data st))
  = [].
Proof.
  unfold emit_review_requested.
  destruct emitter as [em|]; [|reflexivity].
  destruct investigation_id as [inv_id|]; [|reflexivity].
  destruct (negb _); [|reflexivity].
  destruct (if truthy _ then _ else _) as [[vd vc]|]; [|reflexivity].
  destruct (accepts em _); reflexivity.
Qed.

(** An investigation id is read from a dictionary only. *)
Lemma investigation_id_of_dict
    (env : environment) (st : gmap string value) (inv_id : value) :
  get_investigation_id_from_state env st = inr (Some inv_id) ->
  exists data, get_or st "investigation" (VDict ∅) = VDict data.
Proof.
  unfold get_investigation_id_from_state.
  destruct (get_or st "investigation" (VDict ∅)); try discriminate.
  eauto.
Qed.

(** A value that is no dictionary is handed on as it is. *)
Lemma build_investigation_of_dict
    (env : environment) (data : gmap string value)
    (investigation : investigation_object) :
  build_investigation env (VDict data) = Some investigation ->
  investigation = Model.
Proof.
  cbn. destruct (Investigation_validates env data); congruence.
Qed.

(** Where the node takes the decision from the resume value, a payload
    with source dashboard is not flagged for emission. *)
Lemma resume_payload_from_dashboard_not_flagged
    (env : environment) (backend : value) (payload : gmap string value) :
  eq_str backend "cli" && stdin_isatty env = false ->
  interrupt env = Resumed (VDict payload) ->
  payload !! "source" = Some (VStr "dashboard") ->
  _handle_noninteractive_review env backend Model
  = Decided (_coerce_human_decision (get payload "decision"))
            (get payload "feedback") (get payload "reviewer") false.
Proof.
  intros Hcli Hresume Hsource. unfold _handle_noninteractive_review.
  rewrite Hcli, Hresume. unfold get at 4. rewrite Hsource. reflexivity.
Qed.

(** Handed a configuration with a connected HIL service, which the graph
    as built never does, the node emits the decision the service reports,
    whoever took it; sent to [interrupt()] by the configuration, it does
    not. *)
Lemma configured_service_decision_emitted :
  human_review_node resumed_from_dashboard review_state chat_config
  = (inr (<["last_updated" := VStr "2025-01-01T00:00:00"]>
          (<["awaiting_human_approval" := VBool false]>
           (<["human_feedback" := VStr "Decision made via dashboard: approved"]>
            (<["human_decision" := VStr "approve"]>
             (<[_HUMAN_REVIEW_REQUESTED_FLAG := VBool true]>
              (<["awaiting_human_approval" := VBool true]> review_state)))))),
     [HumanReviewRequested
        (VStr "0b9d6f0e-5a57-4c58-9d0e-3f6d2c1a7e11")
        "Verdict requires human approval before escalation"
        (VStr "escalate") (VFloat 4606281698874543309);
      HumanDecisionReceived
        (VStr "0b9d6f0e-5a57-4c58-9d0e-3f6d2c1a7e11") "approve"
        (VStr "Decision made via dashboard: approved") VNone])
  /\ snd (human_review_node resumed_from_dashboard review_state
            dashboard_config)
     = [HumanReviewRequested
          (VStr "0b9d6f0e-5a57-4c58-9d0e-3f6d2c1a7e11")
          "Verdict requires human approval before escalation"
          (VStr "escalate") (VFloat 4606281698874543309)].
Proof.
  split.
  - vm_compute. reflexivity.
  - vm_compute. reflexivity.
Qed.

(** A verdict without its required fields stops the node at
    the building of the [Verdict], after the first emission. *)
Lemma verdict_without_required_fields_raises :
  human_review_node resumed_from_dashboard
    (<["verdict" := VDict {[ "decision" := VStr "escalate" ]}]> review_state)
    dashboard_config
  = (inl ValidationError,
     [HumanReviewRequested
        (VStr "0b9d6f0e-5a57-4c58-9d0e-3f6d2c1a7e11")
        "Verdict requires human approval before escalation"
        (VStr "escalate") (VFloat 0)]).
Proof. vm_compute. reflexivity. Qed.

(** C4. The node as the graph runs it hands nothing to an emitter, so no
    HUMAN_DECISION_RECEIVED for any decision; and whatever configuration
    the function is called with, when that configuration sends it to
    [interrupt()] and the resume payload carries source dashboard, it
    emits no HUMAN_DECISION_RECEIVED, whether it returns or raises. *)
Theorem dashboard_decision_not_emitted_again :
  (forall (env : environment) (st : gmap string value),
     snd (human_review env st) = [])
  /\ (forall (env : environment) (st : gmap string value)
             (run_config : option configurable)
             (payload : gmap string value),
        reaches_interrupt env run_config ->
        interrupt env = Resumed (VDict payload) ->
        payload !! "source" = Some (VStr "dashboard") ->
        filter (fun m => Is_true (is_decision_received m))
               (snd (human_review_node env st run_config)) = []).
Proof.
  split.
  - intros env st. unfold human_review, human_review_node.
    cbn [get_emitter_from_config].
    destruct (get_investigation_id_from_state env _) as [e|investigation_id];
      [reflexivity|].
    cbn [emit_review_requested].
    destruct (build_investigation env _) as [investigation|]; [|reflexivity].
    destruct (negb _); [reflexivity|].
    destruct (_handle_noninteractive_review env _ investigation);
      reflexivity.
  - intros env st run_config payload Hreach Hresume Hsource.
    unfold human_review_node.
    set (st1 := <["awaiting_human_approval":=VBool true]> st).
    destruct (get_investigation_id_from_state env st1)
      as [e|investigation_id] eqn:Hid; [reflexivity|].
    pose proof (review_requested_not_decision
                  (get_emitter_from_config run_config) investigation_id
                  (get_or st1 "verdict" (VDict ∅)) st1) as Hrequested.
    destruct (emit_review_requested _ _ _ _) as [st2 requested].
    cbn [snd] in Hrequested.
    destruct (build_investigation env _) as [investigation|] eqn:Hbuild;
      [|exact Hrequested].
    destruct (negb _); [exact Hrequested|].
    assert (match run_config with
            | Some c => hil_service c
            | None => None
            end = None
            \/ exists svc, match run_config with
                           | Some c => hil_service c
                           | None => None
                           end = Some svc /\ is_connected svc = false) as Hsvc.
    { destruct run_config as [c|]; [|left; reflexivity].
      destruct Hreach as [Hsvc _]. destruct (hil_service c) as [svc|];
        [right; eauto | left; reflexivity]. }
    assert (eq_str match run_config with
                   | Some c => py_or (hil_backend c) (VStr "cli")
                   | None => VStr "cli"
                   end "cli" && stdin_isatty env = false) as Hcli.
    { destruct run_config as [c|]; [apply Hreach|].
      cbn in Hreach. rewrite Hreach. apply andb_false_r. }
    assert (forall backend,
              eq_str backend "cli" && stdin_isatty env = false ->
              match _handle_noninteractive_review env backend investigation with
              | Interrupted | Failed _ => True
              | Decided _ _ _ emit_event =>
                  emit_event = true -> investigation_id = None
              end) as Hreview.
    { intros backend Hback. destruct investigation as [|v].
      - rewrite (resume_payload_from_dashboard_not_flagged
                   env backend payload Hback Hresume Hsource).
        discriminate.
      - unfold _handle_noninteractive_review. rewrite Hback.
        intros _. destruct investigation_id as [inv_id|]; [|reflexivity].
        destruct (investigation_id_of_dict env st1 inv_id Hid) as [data Hdata].
        rewrite Hdata in Hbuild.
        apply build_investigation_of_dict in Hbuild. discriminate. }
    specialize (Hreview _ Hcli).
    destruct Hsvc as [-> | (svc & -> & ->)];
      destruct (_handle_noninteractive_review env _ investigation)
        as [|msg|decision feedback reviewer emit_event];
      cbn [snd]; try exact Hrequested;
      rewrite filter_app, Hrequested;
      (destruct emit_event; [rewrite (Hreview eq_refl)|]);
      repeat case_match; reflexivity.
Qed.

Lemma dashboard_decision_not_emitted_again_witness :
  filter (fun m => Is_true (is_decision_received m))
         (snd (human_review_node resumed_from_dashboard review_state
                 dashboard_config)) = [].
Proof.
  refine (proj2 dashboard_decision_not_emitted_again resumed_from_dashboard
            review_state dashboard_config
            {[ "decision" := VStr "approve"; "feedback" := VNone;
               "reviewer" := VStr "analyst"; "source" := VStr "dashboard" ]}
            _ _ _).
  - split; [exact I | reflexivity].
  - reflexivity.
  - vm_compute. reflexivity.
Defined.

End HumanReview.

(** ** Projector: max_severity along the events of an investigation *)

Section MaxSeverity.

Import Models Projector.

Lemma severity_order_nonneg s : 0 <= severity_order s.
Proof. unfold severity_order. repeat case_match; lia. Qed.

Lemma sev_rank_nonneg v : 0 <= sev_rank v.
Proof. destruct v; cbn; try lia. apply severity_order_nonneg. Qed.

Lemma triage_keeps_max_severity ts i :
  max_severity (set_triage_if_unset ts i) = max_severity i.
Proof. unfold set_triage_if_unset. destruct (time_to_triage_seconds i); reflexivity. Qed.

Lemma alert_correlated_monotone e i :
  sev_rank (max_severity i)
  <= sev_rank (max_severity (snd (_project_alert_correlated e i))).
Proof.
  unfold _project_alert_correlated.
  destruct (truthy (get (data e) "severity")); [|cbn; lia].
  cbn [max_severity set_updated_at set_alert_count].
  destruct (max_severity i) as [| | | |current| |] eqn:Hcur;
    try (cbn; apply sev_rank_nonneg).
  all: unfold _compare_severity;
    destruct (get (data e) "severity") as [| | | |sev| |];
    cbn [value_lower]; try (cbn; rewrite Hcur; cbn; lia).
  destruct (severity_order (lower sev) <? severity_order (lower current)) eqn:E1;
    [cbn; rewrite Hcur; cbn; lia|].
  destruct (severity_order (lower current) <? severity_order (lower sev)) eqn:E2;
    cbn; rewrite ?Hcur; cbn; lia.
Qed.

Lemma apply_event_monotone e i :
  overwrites_severity e = false ->
  sev_rank (max_severity i) <= sev_rank (max_severity (apply_event e i)).
Proof.
  unfold overwrites_severity, apply_event, handler_of. intros Hnot.
  destruct (String.eqb (event_type e) INVESTIGATION_CREATED) eqn:Hcreated.
  { cbn in Hnot. unfold _project_investigation_created. rewrite Hnot.
    destruct (has_key (data e) "title"); cbn; lia. }
  repeat match goal with
         | |- context [if String.eqb (event_type e) ?t then _ else _] =>
             destruct (String.eqb (event_type e) t)
         end;
    try lia;
    try apply alert_correlated_monotone;
    try (unfold _project_investigation_started, _project_investigation_paused,
           _project_investigation_resumed, _project_investigation_cancelled,
           _project_observable_extracted, _project_enrichment_completed,
           _project_verdict_rendered, _project_investigation_escalated,
           _project_investigation_auto_closed, _project_thehive_case_created,
           _project_phase_changed, _project_human_review_requested;
         repeat case_match; cbn [snd];
         rewrite ?triage_keeps_max_severity; cbn; lia).
  unfold _project_investigation_closed.
  repeat case_match; cbn [snd]; rewrite ?triage_keeps_max_severity; cbn; lia.
Qed.

(** C8, as stated, fails: after an alert of severity critical, projecting
    an INVESTIGATION_CREATED event whose payload says max_severity low
    replaces critical by low. *)
Lemma created_lowers_max_severity :
  max_severity (apply_event critical_alert (new_investigation 1 0 0))
  = VStr "critical"
  /\ max_severity
       (apply_events [critical_alert; created_low] (new_investigation 1 0 0))
     = VStr "low"
  /\ sev_rank (VStr "low") < sev_rank (VStr "critical").
Proof. vm_compute. repeat split; reflexivity. Qed.

(** C8, amended. For every investigation read model and every sequence of
    projected events none of which is an INVESTIGATION_CREATED event
    carrying a max_severity (such an event copies its value), no step
    replaces max_severity by one of lower rank, and so the rank after the
    sequence is at least the rank before; ranks are low 1, medium 2,
    high 3, critical 4, compared case-insensitively, anything else 0. *)
Theorem max_severity_monotone
    (es : list Event) (i : InvestigationReadModel) :
  Forall (fun e => overwrites_severity e = false) es ->
  (forall before e after,
     es = (before ++ e :: after)%list ->
     sev_rank (max_severity (apply_events before i))
     <= sev_rank (max_severity (apply_events (before ++ [e]) i)))
  /\ sev_rank (max_severity i) <= sev_rank (max_severity (apply_events es i)).
Proof.
  intros Hall. split.
  - intros before e after ->. unfold apply_events. rewrite fold_left_app. cbn.
    apply apply_event_monotone.
    rewrite Forall_app, Forall_cons in Hall. tauto.
  - revert i. induction Hall as [|e es He Hall IH]; intros i; cbn; [lia|].
    etransitivity; [apply (apply_event_monotone e i He)|]. apply IH.
Qed.

Lemma max_severity_monotone_witness :
  sev_rank (max_severity (new_investigation 1 0 0))
  <= sev_rank (max_severity
                 (apply_events [critical_alert; low_alert]
                               (new_investigation 1 0 0))).
Proof.
  refine (proj2 (max_severity_monotone [critical_alert; low_alert]
                   (new_investigation 1 0 0) _)).
  repeat constructor.
Defined.

End MaxSeverity.

(** ** Event store: idempotency and optimistic concurrency *)

Section StoreAppend.

Import Models EventStore.

Lemma filter_none {A} (P : A -> Prop) `{forall x, Decision (P x)} (l : list A) :
  (forall x, x ∈ l -> ~ P x) -> filter P l = [].
Proof.
  induction l as [|x l IH]; intros Hnone; [reflexivity|].
  rewrite filter_cons_False by (apply Hnone; left).
  apply IH. intros y Hy. apply Hnone. by right.
Qed.

Lemma filter_key_singleton (rows : list Event) (k : string) (e0 : Event) :
  keys_unique rows -> e0 ∈ rows -> idempotency_key e0 = Some k ->
  filter (fun r => idempotency_key r = Some k) rows = [e0].
Proof.
  unfold keys_unique. intros Huniq Hin Hk.
  induction rows as [|r rows IH]; [by apply elem_of_nil in Hin|].
  cbn in Huniq.
  destruct (decide (idempotency_key r = Some k)) as [Hr|Hr].
  - rewrite filter_cons_True by done. rewrite Hr in Huniq.
    apply NoDup_cons in Huniq as [Hnotin Huniq].
    assert (forall x, x ∈ rows -> idempotency_key x <> Some k) as Hnone.
    { intros x Hx Hxk. apply Hnotin. apply list_elem_of_omap. eauto. }
    apply elem_of_cons in Hin as [->|Hin]; [|by destruct (Hnone e0 Hin)].
    f_equal. apply filter_none. exact Hnone.
  - rewrite filter_cons_False by done.
    apply IH.
    + destruct (idempotency_key r); [by apply NoDup_cons in Huniq as [_ ?]|done].
    + apply elem_of_cons in Hin as [->|Hin]; [congruence|done].
Qed.

(** C2, as stated, fails: the retry of an append that carried
    expected_version = 0 finds its idempotency key stored and still
    raises ConcurrencyError, because the version is compared first. *)
Lemma idempotent_retry_with_expected_version_raises :
  (exists e, create_call (Some 0) (empty_world 0) = (inr e, created_world)
             /\ events (db created_world) = [e]
             /\ idempotency_key e = Some "inv-created-1")
  /\ create_call (Some 0) created_world
     = (inl (ConcurrencyError 0 1), created_world).
Proof.
  split.
  - eexists. split; [|split]; vm_compute; reflexivity.
  - vm_compute. reflexivity.
Qed.

(** C2, amended. When a non-empty idempotency key is already stored and
    expected_version is absent or equal to the aggregate's latest version,
    [append] returns the stored event and changes nothing: no row is
    inserted and neither the clock nor the uuid source is read. *)
Theorem append_stored_key_returns_existing
    (w : World) (aggregate : UUID) (etype : string)
    (payload : gmap string value) (metadata : option (gmap string value))
    (atype : string) (expected_version : option Z) (k : string)
    (existing : Event) :
  keys_unique (events (db w)) ->
  existing ∈ events (db w) ->
  idempotency_key existing = Some k ->
  k <> EmptyString ->
  (expected_version = None
   \/ expected_version = Some (latest_version_of (events (db w)) aggregate)) ->
  append aggregate etype payload metadata atype expected_version (Some k) w
  = (inr existing, w).
Proof.
  intros Huniq Hin Hk Hne Hver.
  unfold append, get_latest_version, _get_by_idempotency_key.
  unfold mbind, M_bind, bind, read_db, ret. cbn [key_given].
  apply String.eqb_neq in Hne. rewrite Hne.
  destruct Hver as [-> | ->]; rewrite ?Z.eqb_refl; cbn [negb];
    rewrite (filter_key_singleton _ _ _ Huniq Hin Hk); reflexivity.
Qed.

Lemma append_stored_key_returns_existing_witness :
  exists e, e ∈ events (db created_world)
            /\ create_call None created_world = (inr e, created_world).
Proof.
  eexists. split; [left|].
  refine (append_stored_key_returns_existing created_world 1 _ _ _ _ None
            "inv-created-1" _ _ _ _ _ _).
  - vm_compute. repeat constructor. intros H; inversion H.
  - left.
  - reflexivity.
  - discriminate.
  - left. reflexivity.
Defined.

Lemma existsb_none {A} (f : A -> bool) (l : list A) :
  (forall x, x ∈ l -> f x = false) -> existsb f l = false.
Proof.
  induction l as [|x l IH]; intros Hnone; [reflexivity|]. cbn.
  rewrite (Hnone x) by left. apply IH. intros y Hy. apply Hnone. by right.
Qed.

Lemma existsb_none_inv {A} (f : A -> bool) (l : list A) (x : A) :
  existsb f l = false -> x ∈ l -> f x = false.
Proof.
  induction l as [|y l IH]; intros Hnone Hin; [by apply elem_of_nil in Hin|].
  cbn in Hnone. apply orb_false_iff in Hnone as [Hy Hl].
  apply elem_of_cons in Hin as [->|Hin]; [done|by apply IH].
Qed.

Lemma fold_max_ge (rs : list Event) (m : Z) :
  m <= fold_left (fun m x => Z.max m (version x)) rs m
  /\ forall r, r ∈ rs ->
       version r <= fold_left (fun m x => Z.max m (version x)) rs m.
Proof.
  revert m. induction rs as [|x rs IH]; intros m; cbn.
  - split; [lia|]. intros r Hr. by apply elem_of_nil in Hr.
  - destruct (IH (Z.max m (version x))) as [Hm Hrs]. split; [lia|].
    intros r Hr. apply elem_of_cons in Hr as [->|Hr]; [lia|by apply Hrs].
Qed.

(** The latest version bounds every version stored for the aggregate. *)
Lemma latest_version_bounds (rows : list Event) (aggregate : UUID) (r : Event) :
  r ∈ rows -> aggregate_id r = aggregate ->
  version r <= latest_version_of rows aggregate.
Proof.
  intros Hin Hagg. unfold latest_version_of.
  assert (r ∈ filter (fun r => aggregate_id r = aggregate) rows) as Hf
    by (apply list_elem_of_filter; done).
  destruct (filter _ rows) as [|x rs]; [by apply elem_of_nil in Hf|].
  destruct (fold_max_ge rs (version x)) as [Hx Hrs].
  apply elem_of_cons in Hf as [->|Hf]; [lia|by apply Hrs].
Qed.

(** An event numbered after the latest version, with a fresh id and a key
    no stored event carries, violates no constraint. *)
Lemma next_event_violates_nothing (rows : list Event) (e : Event) :
  (forall r, r ∈ rows -> event_id r <> event_id e) ->
  version e = latest_version_of rows (aggregate_id e) + 1 ->
  key_stored rows (idempotency_key e) = false ->
  violated rows e = None.
Proof.
  intros Hfresh Hver Hkey. unfold violated.
  rewrite existsb_none; last first.
  { intros r Hr. apply Z.eqb_neq. by apply Hfresh. }
  rewrite existsb_none; last first.
  { intros r Hr. apply andb_false_iff.
    destruct (Z.eqb_spec (aggregate_id r) (aggregate_id e)) as [Hagg|];
      [right|by left].
    pose proof (latest_version_bounds rows _ r Hr Hagg). apply Z.eqb_neq. lia. }
  unfold key_stored in Hkey. destruct (idempotency_key e); [|reflexivity].
  rewrite Hkey. reflexivity.
Qed.

(** C3, as stated, fails: with latest version 1 and expected_version 1,
    an append whose idempotency key is stored succeeds without assigning
    version 2: it returns the stored event, of version 1. *)
Lemma expected_version_met_but_key_stored :
  latest_version_of (events (db created_world)) 1 = 1
  /\ exists e, create_call (Some 1) created_world = (inr e, created_world)
               /\ version e = 1.
Proof.
  split; [vm_compute; reflexivity|].
  eexists. split; vm_compute; reflexivity.
Qed.

(** C3, amended. With expected_version given and the aggregate's latest
    version v: if expected_version differs from v, [append] raises
    ConcurrencyError with the expected and the actual version and changes
    nothing; if it equals v, no stored event carries the call's
    idempotency key and the drawn event id is new, [append] inserts the
    event with version v + 1 and returns it. *)
Theorem append_expected_version
    (w : World) (aggregate : UUID) (etype : string)
    (payload : gmap string value) (metadata : option (gmap string value))
    (atype : string) (ev : Z) (key : option string) :
  (ev <> latest_version_of (events (db w)) aggregate ->
   append aggregate etype payload metadata atype (Some ev) key w
   = (inl (ConcurrencyError ev (latest_version_of (events (db w)) aggregate)),
      w))
  /\ (ev = latest_version_of (events (db w)) aggregate ->
      key_stored (events (db w)) key = false ->
      next_uuid_fresh w ->
      exists e w',
        append aggregate etype payload metadata atype (Some ev) key w
        = (inr e, w')
        /\ version e = ev + 1
        /\ aggregate_id e = aggregate
        /\ events (db w') = (events (db w) ++ [e])%list
        /\ investigations (db w') = investigations (db w)).
Proof.
  split.
  - intros Hne. unfold append, get_latest_version.
    unfold mbind, M_bind, bind, read_db, ret, raise.
    apply Z.eqb_neq in Hne. rewrite Z.eqb_sym, Hne. reflexivity.
  - intros -> Hkey Hfresh. unfold append, get_latest_version.
    unfold mbind, M_bind, bind, read_db, ret. rewrite Z.eqb_refl. cbn [negb].
    assert ((let (s, w') :=
               match key_given key with
               | Some k => _get_by_idempotency_key k
               | None => fun w0 : World => (inr None, w0)
               end w in
             (s, w')) = (inr None, w)) as Hexisting.
    { destruct key as [k|]; [|reflexivity]. cbn [key_given].
      destruct (String.eqb k EmptyString); [reflexivity|].
      unfold _get_by_idempotency_key, mbind, M_bind, bind, read_db.
      rewrite filter_none; [reflexivity|].
      intros r Hr Hrk. cbn in Hkey.
      pose proof (existsb_none_inv _ _ r Hkey Hr) as Hfalse. cbn in Hfalse.
      apply bool_decide_eq_false in Hfalse. done. }
    destruct (match key_given key with
              | Some k => _get_by_idempotency_key k
              | None => fun w0 : World => (inr None, w0)
              end w) as [s w1].
    injection Hexisting as -> ->.
    unfold utcnow, uuid4, add_and_flush, mbind, M_bind, bind, read_db,
      write_db, ret, set_db. cbn [db events investigations].
    rewrite next_event_violates_nothing; [|exact Hfresh|reflexivity|exact Hkey].
    eexists _, _. split; [reflexivity|]. cbn. repeat split; reflexivity.
Qed.

Lemma append_expected_version_witness :
  create_call (Some 0) created_world
  = (inl (ConcurrencyError 0 (latest_version_of (events (db created_world)) 1)),
     created_world)
  /\ exists e w',
       create_call (Some 0) (empty_world 0) = (inr e, w')
       /\ version e = 0 + 1
       /\ aggregate_id e = 1
       /\ events (db w') = (events (db (empty_world 0)) ++ [e])%list
       /\ investigations (db w') = investigations (db (empty_world 0)).
Proof.
  split.
  - refine (proj1 (append_expected_version created_world 1 _ _ _ _ 0 _) _).
    vm_compute. discriminate.
  - refine (proj2 (append_expected_version (empty_world 0) 1 _ _ _ _ 0 _) _ _ _).
    + vm_compute. reflexivity.
    + vm_compute. reflexivity.
    + intros r Hr. vm_compute in Hr. by apply elem_of_nil in Hr.
Defined.

End StoreAppend.

(** ** Replay against the online projection *)

Section ReplayRow.

Import Models EventStore Projector Replay.

(** C1, as stated, fails: an aggregate whose first event is not
    INVESTIGATION_CREATED gets its row from the model's defaults, whose
    created_at is the clock reading at the time of the projection; the
    replay reads the clock later, and the rebuilt row differs from the
    online one. *)
Lemma replay_differs_without_created_event :
  online [alert_call] (empty_world 0)
  = (inr tt, after_online [alert_call])
  /\ (delete_read_models ;; replay 1) (after_online [alert_call])
     = (inr tt, after_replay [alert_call] 1)
  /\ created_at <$> investigations (db (after_online [alert_call])) !! 1
     = Some 1000000
  /\ created_at <$> investigations (db (after_replay [alert_call] 1)) !! 1
     = Some 3000000
  /\ investigations (db (after_replay [alert_call] 1)) !! 1
     <> investigations (db (after_online [alert_call])) !! 1.
Proof.
  split; [vm_compute; reflexivity|].
  split; [vm_compute; reflexivity|].
  split; [vm_compute; reflexivity|].
  split; [vm_compute; reflexivity|].
  intros Heq. apply (f_equal (fmap created_at)) in Heq.
  vm_compute in Heq. discriminate.
Qed.

(** The other way the two paths part: an append that finds its
    idempotency key stored returns the stored event, and
    [ProjectingEventStore.append] projects it a second time.  Here the
    retried creation puts the started investigation back to pending, while
    the replay of the two stored events leaves it in progress. *)
Lemma idempotent_hit_projected_twice :
  online [created_call; started_call; created_call] (empty_world 0)
  = (inr tt, after_online [created_call; started_call; created_call])
  /\ length (events (db (after_online
                           [created_call; started_call; created_call])))
     = 2%nat
  /\ status <$> investigations
                  (db (after_online
                         [created_call; started_call; created_call])) !! 1
     = Some "pending"
  /\ status <$> investigations
                  (db (after_replay
                         [created_call; started_call; created_call] 1)) !! 1
     = Some "in_progress".
Proof.
  split; [vm_compute; reflexivity|].
  split; [vm_compute; reflexivity|].
  split; vm_compute; reflexivity.
Qed.

Lemma triage_keeps_id ts i : inv_id (set_triage_if_unset ts i) = inv_id i.
Proof. unfold set_triage_if_unset. destruct (time_to_triage_seconds i); reflexivity. Qed.

Lemma handler_keeps_id etype handler e i :
  handler_of etype = Some handler -> inv_id (snd (handler e i)) = inv_id i.
Proof.
  unfold handler_of.
  repeat match goal with
         | |- context [if String.eqb etype ?t then _ else _] =>
             destruct (String.eqb etype t)
         end;
    intros Hh; try discriminate; injection Hh as <-;
    unfold _project_investigation_created, _project_investigation_started,
      _project_investigation_paused, _project_investigation_resumed,
      _project_investigation_cancelled, _project_alert_correlated,
      _project_observable_extracted, _project_enrichment_completed,
      _project_verdict_rendered, _project_investigation_escalated,
      _project_investigation_auto_closed, _project_investigation_closed,
      _project_thehive_case_created, _project_phase_changed,
      _project_human_review_requested;
    repeat case_match; cbn [snd]; rewrite ?triage_keeps_id; reflexivity.
Qed.

(** What one run of [project] does to the tables. *)
Lemma project_spec (e : Event) (w : World) :
  rows_keyed (db w) ->
  exists w',
    project e w
    = (match fst (row_after (clock w (ticks w)) (clock w (S (ticks w))) e
                    (investigations (db w) !! aggregate_id e)) with
       | Some ex => inl ex
       | None => inr tt
       end, w')
    /\ events (db w') = events (db w)
    /\ (forall a,
          investigations (db w') !! a
          = if decide (a = aggregate_id e)
            then snd (row_after (clock w (ticks w)) (clock w (S (ticks w))) e
                        (investigations (db w) !! aggregate_id e))
            else investigations (db w) !! a)
    /\ clock w' = clock w /\ uuids w' = uuids w /\ drawn w' = drawn w
    /\ rows_keyed (db w').
Proof.
  intros Hkeyed. unfold project, row_after.
  destruct (handler_of (event_type e)) as [handler|] eqn:Hh.
  - unfold _get_or_create_investigation, store_investigation.
    unfold mbind, M_bind, bind, read_db, write_db, ret, raise, utcnow, set_db.
    cbn [db events investigations clock ticks].
    destruct (investigations (db w) !! aggregate_id e) as [i|] eqn:Hrow.
    + unfold default; cbn [from_option id]. destruct (handler e i) as [raised i'] eqn:Hrun.
      cbn [fst snd db events investigations].
      assert (inv_id i' = aggregate_id e) as Hid.
      { pose proof (handler_keeps_id _ _ e i Hh) as Hk. rewrite Hrun in Hk.
        cbn in Hk. rewrite Hk. by apply Hkeyed. }
      rewrite Hid.
      destruct raised as [ex|]; eexists; (split; [reflexivity|]);
        cbn [db events investigations clock uuids drawn];
        (split; [reflexivity|]);
        (split; [intros a; destruct (decide (a = aggregate_id e)) as [->|Hne];
                 [apply lookup_insert_eq | by apply lookup_insert_ne]|]);
        repeat (split; [reflexivity|]);
        intros a j Hj; cbn [db investigations] in Hj;
        (destruct (decide (a = aggregate_id e)) as [->|Hne];
         [rewrite lookup_insert_eq in Hj; congruence
         |rewrite lookup_insert_ne in Hj by done; by apply Hkeyed]).
    + unfold default; cbn [from_option id db events investigations clock ticks].
      destruct (handler e _) as [raised i'] eqn:Hrun.
      cbn [fst snd db events investigations].
      assert (inv_id i' = aggregate_id e) as Hid.
      { pose proof (handler_keeps_id _ _ e
                      (new_investigation (aggregate_id e) (clock w (ticks w))
                         (clock w (S (ticks w)))) Hh) as Hk.
        rewrite Hrun in Hk. exact Hk. }
      rewrite Hid.
      destruct raised as [ex|]; eexists; (split; [reflexivity|]);
        cbn [db events investigations clock uuids drawn];
        (split; [reflexivity|]);
        (split; [intros a; destruct (decide (a = aggregate_id e)) as [->|Hne];
                 [apply lookup_insert_eq
                 |rewrite !lookup_insert_ne by done; reflexivity]|]);
        repeat (split; [reflexivity|]);
        intros a j Hj; cbn [db investigations] in Hj;
        (destruct (decide (a = aggregate_id e)) as [->|Hne];
         [rewrite lookup_insert_eq in Hj; congruence
         |rewrite !lookup_insert_ne in Hj by done; by apply Hkeyed]).
  - exists w. unfold ret. cbn. split; [reflexivity|]. split; [reflexivity|].
    split; [|done].
    intros a. destruct (decide (a = aggregate_id e)) as [->|]; reflexivity.
Qed.

Lemma project_keeps_events (e : Event) (w w' : World) res :
  project e w = (res, w') -> events (db w') = events (db w).
Proof.
  unfold project. destruct (handler_of (event_type e)) as [handler|];
    [|unfold ret; intros [= <- <-]; reflexivity].
  unfold _get_or_create_investigation, store_investigation.
  unfold mbind, M_bind, bind, read_db, write_db, ret, raise, utcnow, set_db.
  cbn [db events investigations].
  destruct (investigations (db w) !! aggregate_id e) as [i|];
    cbn [db events investigations];
    destruct (handler e _) as [[ex|] i']; intros [= <- <-]; reflexivity.
Qed.

(** A successful [EventStore.append] either returned a stored event and
    changed nothing, or put one new event at the end of the table. *)
Lemma append_success
    (w w' : World) (aggregate : UUID) (etype : string)
    (payload : gmap string value) (metadata : option (gmap string value))
    (atype : string) (expected_version : option Z) (key : option string)
    (e : Event) :
  EventStore.append aggregate etype payload metadata atype expected_version
    key w = (inr e, w') ->
  (w' = w /\ e ∈ events (db w))
  \/ (events (db w') = (events (db w) ++ [e])%list
      /\ investigations (db w') = investigations (db w)
      /\ aggregate_id e = aggregate
      /\ version e = latest_version_of (events (db w)) aggregate + 1).
Proof.
  unfold EventStore.append, get_latest_version.
  unfold mbind, M_bind, bind, read_db, ret, raise.
  assert (forall k, exists found,
            _get_by_idempotency_key k w = (found, w)
            /\ forall x, found = inr (Some x) -> x ∈ events (db w)) as Hfind.
  { intros k. unfold _get_by_idempotency_key, scalar_one_or_none.
    unfold mbind, M_bind, bind, read_db, ret, raise.
    destruct (filter _ (events (db w))) as [|x [|y rest]] eqn:Hf;
      eexists; (split; [reflexivity|]); intros x0 [= <-].
    assert (x ∈ filter (fun r => idempotency_key r = Some k) (events (db w)))
      as Hx by (rewrite Hf; left).
    by apply list_elem_of_filter in Hx as [_ Hx]. }
  assert (exists found,
            match key_given key with
            | Some k => _get_by_idempotency_key k
            | None => fun w0 : World => (inr None, w0)
            end w = (found, w)
            /\ forall x, found = inr (Some x) -> x ∈ events (db w))
    as (found & Hfound_eq & Hfound).
  { destruct (key_given key) as [k|]; [apply Hfind|].
    eexists. split; [reflexivity|]. discriminate. }
  destruct expected_version as [ev|];
    [destruct (negb (latest_version_of (events (db w)) aggregate =? ev));
     [intros Hraised; discriminate Hraised|]|].
  all: cbn beta iota; rewrite Hfound_eq.
  all: destruct found as [ex|[x|]];
    [discriminate
    |intros [= <- <-]; left; split; [reflexivity|by apply Hfound]
    |].
  all: unfold utcnow, uuid4, add_and_flush, rollback, get_latest_version;
    unfold mbind, M_bind, bind, read_db, write_db, ret, raise, set_db;
    cbn [db events investigations];
    destruct (violated _ _) as [c|];
    [destruct c; cbn;
     [discriminate|discriminate|destruct (key_given key); discriminate]
    |intros [= <- <-]; right; cbn; repeat split; reflexivity].
Qed.

Lemma bind_inr {A B} (m : M A) (k : A -> M B) (w w' : World) (b : B) :
  bind m k w = (inr b, w') ->
  exists a w1, m w = (inr a, w1) /\ k a w1 = (inr b, w').
Proof. unfold bind. destruct (m w) as [[ex|a] w1]; [discriminate|eauto]. Qed.

Lemma projecting_append_grows_by_one
    (w w' : World) (c : call) (e : Event) :
  ProjectingEventStore.append (c_aggregate_id c) (c_event_type c) (c_data c)
    (c_metadata c) (c_aggregate_type c) (c_expected_version c)
    (c_idempotency_key c) w = (inr e, w') ->
  (length (events (db w')) <= S (length (events (db w))))%nat.
Proof.
  unfold ProjectingEventStore.append, mbind, M_bind. intros Hrun.
  apply bind_inr in Hrun as (e1 & w1 & Happ & Hrun).
  apply bind_inr in Hrun as ([] & w2 & Hproj & Hret).
  unfold ret in Hret. injection Hret as <- <-.
  rewrite (project_keeps_events _ _ _ _ Hproj).
  apply append_success in Happ as [[-> _] | (-> & _)]; [lia|].
  rewrite length_app. cbn. lia.
Qed.

Lemma online_cons (c : call) (calls : list call) (w w' : World) :
  online (c :: calls) w = (inr tt, w') ->
  exists e w1,
    ProjectingEventStore.append (c_aggregate_id c) (c_event_type c) (c_data c)
      (c_metadata c) (c_aggregate_type c) (c_expected_version c)
      (c_idempotency_key c) w = (inr e, w1)
    /\ online calls w1 = (inr tt, w').
Proof.
  unfold online. cbn [for_each]. unfold mbind, M_bind.
  intros Hrun. apply bind_inr in Hrun as ([] & w1 & Hcall & Hrest).
  apply bind_inr in Hcall as (e & w2 & Hcall & Hret).
  unfold ret in Hret. injection Hret as <-. eauto.
Qed.

Lemma online_grows_at_most (calls : list call) (w w' : World) :
  online calls w = (inr tt, w') ->
  (length (events (db w')) <= length (events (db w)) + length calls)%nat.
Proof.
  revert w. induction calls as [|c calls IH]; intros w.
  - unfold online, for_each, ret. intros [= <-]. lia.
  - intros Hrun. apply online_cons in Hrun as (e & w1 & Hcall & Hrest).
    apply projecting_append_grows_by_one in Hcall. apply IH in Hrest.
    cbn. lia.
Qed.

Lemma stream_snoc (rows : list Event) (e : Event) (a : UUID) :
  stream (rows ++ [e]) a
  = (stream rows a ++ if decide (aggregate_id e = a) then [e] else [])%list.
Proof.
  unfold stream. rewrite filter_app. reflexivity.
Qed.

Lemma increasing_snoc (vs : list Z) (v : Z) :
  increasing vs -> Forall (fun x => x < v) vs -> increasing (vs ++ [v]).
Proof.
  induction vs as [|x vs IH]; cbn; intros Hinc Hlt; [done|].
  destruct Hinc as [Hx Hinc]. apply Forall_cons in Hlt as [Hxv Hlt].
  split; [|by apply IH].
  apply Forall_app. split; [done|]. by apply Forall_singleton.
Qed.

Lemma order_by_version_increasing (l : list Event) :
  increasing (map version l) -> order_by_version l = l.
Proof.
  unfold order_by_version.
  induction l as [|x l IH]; cbn; intros Hinc; [reflexivity|].
  destruct Hinc as [Hx Hinc]. rewrite IH by done.
  destruct l as [|y l]; [reflexivity|]. cbn.
  cbn in Hx. apply Forall_cons in Hx as [Hxy _].
  assert ((version x <? version y) = true) as -> by lia. reflexivity.
Qed.

(** The clock readings matter only to a row that is created by an event
    other than INVESTIGATION_CREATED. *)
Lemma row_after_clock_free (c1 c2 : Z) (e : Event)
    (r : option InvestigationReadModel) :
  is_Some r \/ event_type e = INVESTIGATION_CREATED ->
  row_after c1 c2 e r = row_after 0 0 e r.
Proof.
  intros [[i ->] | Hcreated]; unfold row_after.
  - destruct (handler_of (event_type e)); reflexivity.
  - destruct r as [i|]; [destruct (handler_of (event_type e)); reflexivity|].
    rewrite Hcreated.
    change (handler_of INVESTIGATION_CREATED)
      with (Some _project_investigation_created).
    unfold default; cbn [from_option id].
    unfold _project_investigation_created. cbn [fst snd].
    destruct (has_key (data e) "title"), (has_key (data e) "max_severity");
      reflexivity.
Qed.

Lemma row_after_keeps_row (c1 c2 : Z) (e : Event)
    (r : option InvestigationReadModel) :
  is_Some r \/ event_type e = INVESTIGATION_CREATED ->
  is_Some (snd (row_after c1 c2 e r)).
Proof.
  intros [[i ->] | Hcreated]; unfold row_after.
  - destruct (handler_of (event_type e)); cbn; eauto.
  - rewrite Hcreated.
    change (handler_of INVESTIGATION_CREATED)
      with (Some _project_investigation_created).
    cbn. eauto.
Qed.

Lemma rebuild_from_failure (es : list Event) :
  fold_left rebuild_step es None = None.
Proof. induction es; [reflexivity|exact IHes]. Qed.

Lemma rebuild_step_inv (r : option InvestigationReadModel) (e : Event) r' :
  rebuild_step (Some r) e = Some r' ->
  row_after 0 0 e r = (None, r').
Proof.
  unfold rebuild_step. destruct (row_after 0 0 e r) as [[ex|] r1];
    [discriminate|]. by intros [= ->].
Qed.

Lemma rebuild_keeps_row (es : list Event) (r0 r : option InvestigationReadModel) :
  is_Some r0 -> fold_left rebuild_step es (Some r0) = Some r -> is_Some r.
Proof.
  revert r0. induction es as [|e es IH]; intros r0 Hr0; cbn [fold_left].
  - by intros [= <-].
  - destruct (rebuild_step (Some r0) e) as [r1|] eqn:Hstep;
      [|by rewrite rebuild_from_failure].
    apply IH. apply rebuild_step_inv in Hstep.
    pose proof (row_after_keeps_row 0 0 e r0 (or_introl Hr0)) as Hk.
    by rewrite Hstep in Hk.
Qed.

Lemma rebuilt_row_exists (es : list Event) (r : option InvestigationReadModel) :
  es <> [] -> starts_with_created es -> rebuilt es = Some r -> is_Some r.
Proof.
  destruct es as [|e es]; [done|]. intros _ Hcreated. unfold rebuilt.
  cbn [fold_left].
  destruct (rebuild_step (Some None) e) as [r1|] eqn:Hstep;
    [|by rewrite rebuild_from_failure].
  apply rebuild_keeps_row. apply rebuild_step_inv in Hstep.
  pose proof (row_after_keeps_row 0 0 e None (or_intror Hcreated)) as Hk.
  by rewrite Hstep in Hk.
Qed.

Lemma projected_initially : projected no_tables.
Proof.
  split; [|split].
  - intros a i Hi. cbn in Hi. by rewrite lookup_empty in Hi.
  - intros a. exact I.
  - intros a _. cbn. by rewrite lookup_empty.
Qed.

Lemma projected_step (w w' : World) (c : call) (e : Event) :
  projected (db w) ->
  ProjectingEventStore.append (c_aggregate_id c) (c_event_type c) (c_data c)
    (c_metadata c) (c_aggregate_type c) (c_expected_version c)
    (c_idempotency_key c) w = (inr e, w') ->
  length (events (db w')) = S (length (events (db w))) ->
  projected (db w').
Proof.
  intros (Hkeyed & Hinc & Hrows) Hrun Hlen.
  unfold ProjectingEventStore.append, mbind, M_bind in Hrun.
  apply bind_inr in Hrun as (e1 & w1 & Happ & Hrun).
  apply bind_inr in Hrun as ([] & w2 & Hproj & Hret).
  unfold ret in Hret. injection Hret as <- <-.
  pose proof (project_keeps_events _ _ _ _ Hproj) as Hev.
  apply append_success in Happ as [[-> _] | (Hev1 & Hinv1 & Hagg & Hver)];
    [rewrite Hev in Hlen; lia|].
  assert (rows_keyed (db w1)) as Hkeyed1.
  { intros a i. rewrite Hinv1. apply Hkeyed. }
  destruct (project_spec e1 w1 Hkeyed1)
    as (w2' & Hproj' & _ & Hrow & _ & _ & _ & Hkeyed2).
  rewrite Hproj in Hproj'.
  destruct (fst (row_after _ _ e1 _)) as [ex|] eqn:Hraised;
    [discriminate|]. injection Hproj' as <-.
  rewrite Hinv1 in Hrow, Hraised.
  split; [exact Hkeyed2|]. split.
  - intros a. rewrite Hev, Hev1, stream_snoc.
    destruct (decide (aggregate_id e1 = a)) as [Ha|Ha];
      [|rewrite app_nil_r; apply Hinc].
    rewrite map_app. apply increasing_snoc; [apply Hinc|].
    apply Forall_forall. intros v Hv.
    apply list_elem_of_fmap in Hv as (r & -> & Hr).
    apply list_elem_of_filter in Hr as [Hra Hr].
    pose proof (latest_version_bounds _ _ r Hr Hra) as Hbound.
    rewrite <- Hagg in Hver. subst a. cbn. lia.
  - intros a. rewrite Hev, Hev1, stream_snoc, Hrow.
    destruct (decide (aggregate_id e1 = a)) as [Ha|Ha].
    + subst a. rewrite decide_True by done. intros Hcreated.
      unfold rebuilt. rewrite fold_left_app. cbn [fold_left].
      fold (rebuilt (stream (events (db w)) (aggregate_id e1))).
      destruct (stream (events (db w)) (aggregate_id e1)) as [|e0 es] eqn:Hs.
      * cbn in Hcreated.
        pose proof (Hrows (aggregate_id e1)) as Hnone. rewrite Hs in Hnone.
        specialize (Hnone I). cbn in Hnone. injection Hnone as Hnone.
        rewrite <- Hnone in *. cbn [rebuilt fold_left rebuild_step].
        rewrite (row_after_clock_free (clock w1 (ticks w1))
                   (clock w1 (S (ticks w1))) e1 None (or_intror Hcreated))
          in Hraised |- *.
        destruct (row_after 0 0 e1 None) as [raised r1]. cbn in Hraised.
        subst raised. reflexivity.
      * assert (starts_with_created (e0 :: es)) as Hhead by exact Hcreated.
        pose proof (Hrows (aggregate_id e1)) as Hsome. rewrite Hs in Hsome.
        specialize (Hsome Hhead). rewrite Hsome.
        assert (is_Some (investigations (db w) !! aggregate_id e1)) as Hrow0
          by (eapply rebuilt_row_exists; [|exact Hhead|exact Hsome]; done).
        cbn [rebuild_step].
        rewrite (row_after_clock_free (clock w1 (ticks w1))
                   (clock w1 (S (ticks w1))) e1 _ (or_introl Hrow0))
          in Hraised |- *.
        destruct (row_after 0 0 e1 _) as [raised r1]. cbn in Hraised.
        subst raised. reflexivity.
    + rewrite decide_False by done. rewrite app_nil_r. apply Hrows.
Qed.

Lemma online_projected (calls : list call) (w w' : World) :
  projected (db w) ->
  online calls w = (inr tt, w') ->
  length (events (db w')) = (length (events (db w)) + length calls)%nat ->
  projected (db w').
Proof.
  revert w. induction calls as [|c calls IH]; intros w Hinv Hrun Hlen.
  - unfold online, for_each, ret in Hrun. by injection Hrun as <-.
  - apply online_cons in Hrun as (e & w1 & Hcall & Hrest).
    pose proof (projecting_append_grows_by_one _ _ _ _ Hcall) as H1.
    pose proof (online_grows_at_most _ _ _ Hrest) as H2.
    cbn in Hlen.
    apply (IH w1); [|exact Hrest|lia].
    eapply projected_step; [exact Hinv|exact Hcall|lia].
Qed.

(** The replay loop over the events of one aggregate. *)
Lemma for_each_project (a : UUID) (es : list Event) :
  forall (w : World) (r : option InvestigationReadModel),
    rows_keyed (db w) ->
    Forall (fun e => aggregate_id e = a) es ->
    is_Some (investigations (db w) !! a) \/ starts_with_created es ->
    fold_left rebuild_step es (Some (investigations (db w) !! a)) = Some r ->
    exists w', for_each es project w = (inr tt, w')
               /\ investigations (db w') !! a = r.
Proof.
  induction es as [|e es IH]; intros w r Hkeyed Hagg Hfree Hfold.
  - cbn in Hfold. injection Hfold as <-. exists w. by split.
  - apply Forall_cons in Hagg as [Ha Hagg]. cbn [fold_left] in Hfold.
    destruct (rebuild_step (Some (investigations (db w) !! a)) e)
      as [r1|] eqn:Hstep; [|by rewrite rebuild_from_failure in Hfold].
    apply rebuild_step_inv in Hstep.
    assert (is_Some (investigations (db w) !! a)
            \/ event_type e = INVESTIGATION_CREATED) as Hfree'.
    { destruct Hfree as [?|Hc]; [by left|by right]. }
    destruct (project_spec e w Hkeyed)
      as (w1 & Hproj & _ & Hrow & _ & _ & _ & Hkeyed1).
    rewrite Ha in Hproj, Hrow.
    rewrite (row_after_clock_free (clock w (ticks w)) (clock w (S (ticks w)))
               e _ Hfree'), Hstep in Hproj, Hrow.
    cbn [fst snd] in Hproj, Hrow.
    specialize (Hrow a). rewrite decide_True in Hrow by done.
    assert (is_Some r1) as Hr1.
    { pose proof (row_after_keeps_row 0 0 e _ Hfree') as Hk.
      by rewrite Hstep in Hk. }
    destruct (IH w1 r Hkeyed1 Hagg) as (w' & Hrest & Hfinal).
    + left. by rewrite Hrow.
    + by rewrite Hrow.
    + exists w'. split; [|exact Hfinal].
      cbn [for_each]. unfold mbind, M_bind, bind. rewrite Hproj. exact Hrest.
Qed.

(** C1, amended. Start from an empty database and make any sequence of
    [ProjectingEventStore.append] calls that all return and each of which
    stores a new event (as many events are stored as calls were made).
    For every aggregate whose first stored event is INVESTIGATION_CREATED,
    replaying [get_events(aggregate_id)] through [Projector.project] from
    an empty read model, whatever the clock then shows, completes and
    produces the row the online path built. *)
Theorem replay_rebuilds_online_row
    (w0 w wr : World) (calls : list call) (a : UUID) :
  db w0 = no_tables ->
  online calls w0 = (inr tt, w) ->
  length (events (db w)) = length calls ->
  starts_with_created (stream (events (db w)) a) ->
  events (db wr) = events (db w) ->
  investigations (db wr) = ∅ ->
  exists wr',
    replay a wr = (inr tt, wr')
    /\ investigations (db wr') !! a = investigations (db w) !! a.
Proof.
  intros Hempty Hrun Hlen Hcreated Hevents Hblank.
  assert (projected (db w)) as (_ & Hinc & Hrows).
  { eapply online_projected; [|exact Hrun|].
    - rewrite Hempty. apply projected_initially.
    - rewrite Hempty. exact Hlen. }
  unfold replay, EventStore.get_events, mbind, M_bind, bind, read_db, ret.
  rewrite Hevents.
  fold (stream (events (db w)) a).
  rewrite (order_by_version_increasing _ (Hinc a)).
  apply for_each_project.
  - intros b i. rewrite Hblank, lookup_empty. discriminate.
  - apply Forall_forall. intros e He.
    by apply list_elem_of_filter in He as [Ha _].
  - right. exact Hcreated.
  - rewrite Hblank, lookup_empty. apply (Hrows a Hcreated).
Qed.

Lemma replay_rebuilds_online_row_witness :
  exists wr',
    replay 1 (snd (delete_read_models
                     (after_online [created_call; started_call])))
    = (inr tt, wr')
    /\ investigations (db wr') !! 1
       = investigations (db (after_online [created_call; started_call])) !! 1.
Proof.
  refine (replay_rebuilds_online_row (empty_world 0)
            (after_online [created_call; started_call])
            (snd (delete_read_models
                    (after_online [created_call; started_call])))
            [created_call; started_call] 1 eq_refl _ _ _ _ _).
  - vm_compute. reflexivity.
  - vm_compute. reflexivity.
  - vm_compute. reflexivity.
  - vm_compute. reflexivity.
  - vm_compute. reflexivity.
Defined.
End ReplayRow.
